(** * InsightEngine: the reasoning-and-logic evaluation pipeline

    A shallow embedding of [insight_engine/agents/*.py],
    [insight_engine/models/evaluation.py] and
    [insight_engine/evaluators/reasoning_logic_evaluator.py], with the
    properties of the evaluation pipeline proved over it.

    Conventions.
    - A Python [str] is the list of its code points.
    - A Python [float] is a binary64 number: a [spec_float] with the
      IEEE 754 operations of [SpecFloat] at precision 53, the ones CPython
      uses; the examples compare them with the machine's.
    - A Python [int] is a [Z].
    - A Python exception is a value of [exn]; code that may raise returns an
      [outcome]. *)

From Stdlib Require Import String Ascii DecimalString.
From Stdlib Require Import ZArith NArith Bool Lia List.
From Stdlib Require Import SpecFloat PrimFloat FloatOps.
Import ListNotations.

Set Implicit Arguments.
Set Warnings "-inexact-float,-register-all".
Local Open Scope Z_scope.

(** ** Python strings *)

Module PyStr.

(** A code point. *)
Definition char := N.
Definition str := list char.

(** [str.isspace] on one character: the code points CPython's
    [Py_UNICODE_ISSPACE] accepts. *)
Definition isspace (c : char) : bool :=
  (((9 <=? c) && (c <=? 13)) || ((28 <=? c) && (c <=? 32))
   || (c =? 133) || (c =? 160) || (c =? 5760)
   || ((8192 <=? c) && (c <=? 8202))
   || (c =? 8232) || (c =? 8233) || (c =? 8239) || (c =? 8287)
   || (c =? 12288))%N.

Fixpoint lstrip (s : str) : str :=
  match s with
  | c :: s' => if isspace c then lstrip s' else s
  | [] => []
  end.

Definition rstrip (s : str) : str := rev (lstrip (rev s)).

(** [s.strip()] *)
Definition strip (s : str) : str := rstrip (lstrip s).

(** [s.startswith(p)] *)
Fixpoint startswith (p s : str) : bool :=
  match p, s with
  | [], _ => true
  | a :: p', b :: s' => (a =? b)%N && startswith p' s'
  | _ :: _, [] => false
  end.

(** [s.endswith(p)] *)
Definition endswith (p s : str) : bool := startswith (rev p) (rev s).

(** [s[n:]] for a non-negative literal [n] *)
Definition slice_from (n : nat) (s : str) : str := skipn n s.

(** [s[:-n]] for a positive literal [n] *)
Definition slice_to_minus (n : nat) (s : str) : str :=
  firstn (length s - n) s.

(** Source literals are written in UTF-8 and decoded to code points. *)
Definition cont (b : N) : N := (b mod 64)%N.

Fixpoint utf8_decode (bs : list N) : str :=
  match bs with
  | [] => []
  | b0 :: r0 =>
    if (b0 <? 128)%N then b0 :: utf8_decode r0
    else if (b0 <? 224)%N then
      match r0 with
      | b1 :: r1 => ((b0 mod 32) * 64 + cont b1)%N :: utf8_decode r1
      | [] => []
      end
    else if (b0 <? 240)%N then
      match r0 with
      | b1 :: b2 :: r2 =>
        ((b0 mod 16) * 4096 + cont b1 * 64 + cont b2)%N :: utf8_decode r2
      | _ => []
      end
    else
      match r0 with
      | b1 :: b2 :: b3 :: r3 =>
        ((b0 mod 8) * 262144 + cont b1 * 4096 + cont b2 * 64 + cont b3)%N
          :: utf8_decode r3
      | _ => []
      end
  end.

Definition of_string (s : string) : str :=
  utf8_decode (map N_of_ascii (list_ascii_of_string s)).

(** [str(n)] for an [int] *)
Definition of_Z (z : Z) : str :=
  of_string (NilZero.string_of_int (Z.to_int z)).

End PyStr.

Import PyStr.

(** [lit "..."] is the [str] a source literal denotes. *)
Definition lit (s : string) : str := PyStr.of_string s.
Arguments lit s%_string_scope.

(** The double quote and the line feed. *)
Definition dq : str := [34%N].
Definition nl : str := [10%N].

Fixpoint join_lines (lines : list str) : str :=
  match lines with
  | [] => []
  | [l] => l
  | l :: rest => l ++ nl ++ join_lines rest
  end.

(** ** Python floats

    A [float] is a binary64 number in the representation of the IEEE 754
    specification of the standard library ([SpecFloat]); the operations are
    the specified ones at the binary64 parameters [prec = 53] and
    [emax = 1024]. *)

Module PyFloat.

Definition float : Type := spec_float.

Definition add : float -> float -> float := SFadd prec emax.
Definition sub : float -> float -> float := SFsub prec emax.
Definition mul : float -> float -> float := SFmul prec emax.
Definition div : float -> float -> float := SFdiv prec emax.
Definition ltb : float -> float -> bool := SFltb.
Definition leb : float -> float -> bool := SFleb.
Definition eqb : float -> float -> bool := SFeqb.

(** The float nearest to the integer [n]. *)
Definition nearest (n : Z) : float := binary_normalize prec emax n 0 false.

(** The float nearest to the fraction [n / d]: the division rounds the
    exact quotient of the two integers. *)
Definition ratio (n : Z) (d : positive) : float :=
  match n with
  | Z0 => S754_zero false
  | Zpos p => div (S754_finite false p 0) (S754_finite false d 0)
  | Zneg p => div (S754_finite true p 0) (S754_finite false d 0)
  end.

(** The float a decimal literal denotes: the one nearest to
    [digits / 10^places]. *)
Definition decimal (digits : Z) (places : Z) : float :=
  match places with
  | Zpos _ => ratio digits (Z.to_pos (10 ^ places))
  | _ => nearest (digits * 10 ^ (- places))
  end.

Definition literal (n : Number.number) : option float :=
  match n with
  | Number.Decimal d =>
    let '(i, f, e) :=
      match d with
      | Decimal.Decimal i f => (i, f, 0)
      | Decimal.DecimalExp i f e => (i, f, Z.of_int e)
      end in
    let x := decimal (Z.abs (Z.of_int (Decimal.app_int i f)))
               (Z.of_nat (Decimal.nb_digits f) - e) in
    Some match i with Decimal.Neg _ => SFopp x | Decimal.Pos _ => x end
  | Number.Hexadecimal _ => None
  end.

Definition unparse (x : float) : option Number.number := None.

Declare Scope py_scope.
Delimit Scope py_scope with py.
Bind Scope py_scope with float.
Number Notation spec_float literal unparse : py_scope.
Infix "+" := add : py_scope.
Infix "-" := sub : py_scope.
Infix "*" := mul : py_scope.
Infix "/" := div : py_scope.
Infix "<?" := ltb : py_scope.
Infix "<=?" := leb : py_scope.
Infix "=?" := eqb : py_scope.

Local Open Scope py_scope.

(** [min(a, b)] and [max(a, b)]: the first argument is kept unless the
    second compares strictly below (above) it. *)
Definition py_min (a b : float) : float := if b <? a then b else a.
Definition py_max (a b : float) : float := if a <? b then b else a.

(** [float(n)] for an [int]: the nearest float, [None] (OverflowError)
    when that is beyond the finite range. *)
Definition of_int (n : Z) : option float :=
  match nearest n with
  | S754_infinity _ => None
  | x => Some x
  end.

(** [int(x)]: truncation toward zero. *)
Inductive truncation := Truncated (n : Z) | OfNaN | OfInfinity.

Definition trunc (x : float) : truncation :=
  match x with
  | S754_nan => OfNaN
  | S754_infinity _ => OfInfinity
  | S754_zero _ => Truncated 0
  | S754_finite s m e =>
    let a := match e with
             | Zneg k => Z.shiftr (Zpos m) (Zpos k)
             | _ => Z.shiftl (Zpos m) e
             end in
    Truncated (if s then (- a)%Z else a)
  end.

(** The integer nearest to [a / b], ties to even ([0 <= a], [0 < b]). *)
Definition div_half_even (a b : Z) : Z :=
  let (q, r) := Z.div_eucl a b in
  match (2 * r ?= b)%Z with
  | Lt => q
  | Gt => (q + 1)%Z
  | Eq => if Z.even q then q else (q + 1)%Z
  end.

(** The integer nearest to [m * 2^e * 10^ndigits], ties to even. *)
Definition scaled (m : positive) (e : Z) (ndigits : Z) : Z :=
  let p := (10 ^ ndigits)%Z in
  match e with
  | Zneg k => div_half_even (Zpos m * p) (2 ^ Zpos k)
  | _ => (Zpos m * p * 2 ^ e)%Z
  end.

(** [round(x, ndigits)] for a small non-negative [ndigits]: the exact value
    of [x] is rounded half-even to [ndigits] decimals, and the float
    nearest to that decimal is returned. *)
Definition py_round (x : float) (ndigits : Z) : float :=
  match x with
  | S754_finite s m e =>
    match scaled m e ndigits with
    | Zpos n =>
      let r := ratio (Zpos n) (Z.to_pos (10 ^ ndigits)) in
      if s then SFopp r else r
    | _ => S754_zero s
    end
  | _ => x
  end.

(** [sum(xs)] over floats: the additions from the integer [0], left to
    right. *)
Definition py_sum (xs : list float) : float := fold_left add xs 0.

(** [lo <= x <= hi] *)
Definition between (lo hi x : float) : bool := (lo <=? x) && (x <=? hi).

End PyFloat.

Import PyFloat.
Local Open Scope py_scope.

(** ** Values decoded from JSON, exceptions, and the world outside *)

(** What [json.loads] returns.  [JDict] lists the items of the [dict] in
    insertion order; a key occurs once. *)
Inductive json : Type :=
| JNull
| JBool (b : bool)
| JInt (n : Z)
| JFloat (x : float)
| JStr (s : str)
| JList (items : list json)
| JDict (members : list (str * json)).

Fixpoint str_eqb (a b : str) : bool :=
  match a, b with
  | [], [] => true
  | x :: a', y :: b' => (x =? y)%N && str_eqb a' b'
  | _, _ => false
  end.

Fixpoint lookup (key : str) (members : list (str * json)) : option json :=
  match members with
  | [] => None
  | (k, v) :: rest => if str_eqb key k then Some v else lookup key rest
  end.

(** [isinstance(v, dict)] *)
Definition is_dict (v : json) : bool :=
  match v with JDict _ => true | _ => false end.

(** The exception classes this code can meet.  [OtherException] stands for
    any further subclass of [Exception] that is not a [ValueError] or a
    [KeyError] (a provider error, [RecursionError], ...). *)
Inductive exn_class :=
| JSONDecodeError | ValueError | KeyError
| TypeError | AttributeError | OverflowError
| ValidationError | OtherException.

(** An exception with what [str(e)] gives. *)
Record exn := Exn { exn_cls : exn_class; exn_str : str }.

Inductive outcome (A : Type) : Type :=
| Ok (a : A)
| Raise (e : exn).
Arguments Ok {A} a.
Arguments Raise {A} e.

Definition bind {A B} (r : outcome A) (k : A -> outcome B) : outcome B :=
  match r with
  | Ok a => k a
  | Raise e => Raise e
  end.

Notation "x <- r ;; k" := (bind r (fun x => k))
  (at level 61, r at next level, right associativity).

(** [try: body except handled as e: handler(e)] *)
Definition try_except {A} (body : outcome A) (handled : exn_class -> bool)
    (handler : exn -> outcome A) : outcome A :=
  match body with
  | Ok a => Ok a
  | Raise e => if handled (exn_cls e) then handler e else Raise e
  end.

(** [except (json.JSONDecodeError, ValueError, KeyError)] *)
Definition parse_errors (c : exn_class) : bool :=
  match c with
  | JSONDecodeError | ValueError | KeyError => true
  | _ => false
  end.

(** [except Exception] *)
Definition any_exception (c : exn_class) : bool := true.

(** The failures of the built-in operations; the interpreter words their
    messages. *)
Inductive failure :=
| NoAttribute (v : json) (attr : str)
| FloatArgument (v : json)
| FloatLiteral (s : str)
| IntArgument (v : json)
| IntLiteral (s : str)
| IntTooLarge (n : Z)
| NaNToInt
| InfinityToInt
| NotIterable (v : json)
| Invalid (model field : str).

Inductive agent_name := ReasoningDepth | ArgumentStructure | LogicalFallacies | Consistency.

(** Everything the pipeline calls and this repository does not define. *)
Record environment := {
  (** [llm.invoke(prompt).content] of the agent's model, or what it raises *)
  llm_invoke : agent_name -> str -> outcome str;
  (** [json.loads] *)
  json_loads : str -> outcome json;
  (** [float(s)] and [int(s)] on a [str]; [None] is a [ValueError] *)
  float_of_str : str -> option float;
  int_of_str : str -> option Z;
  (** [str(v)] on a value that is not a [str] *)
  repr : json -> str;
  (** [str(e)] of a built-in failure *)
  message : failure -> str;
  (** whether pydantic accepts a value for a [str] field, and as what *)
  str_field : json -> option str
}.

Section Builtins.

Variable env : environment.

Definition raise {A} (c : exn_class) (f : failure) : outcome A :=
  Raise (Exn c (message env f)).

(** [v.get(key, default)]; only a [dict] has the method. *)
Definition get (v : json) (key : str) (default : json) : outcome json :=
  match v with
  | JDict members =>
    Ok match lookup key members with Some x => x | None => default end
  | _ => raise AttributeError (NoAttribute v (lit "get"))
  end.

(** [float(v)] *)
Definition py_float (v : json) : outcome float :=
  match v with
  | JFloat x => Ok x
  | JInt n =>
    match of_int n with
    | Some x => Ok x
    | None => raise OverflowError (IntTooLarge n)
    end
  | JBool b => Ok (if b then 1.0 else 0.0)
  | JStr s =>
    match float_of_str env s with
    | Some x => Ok x
    | None => raise ValueError (FloatLiteral s)
    end
  | JNull | JList _ | JDict _ => raise TypeError (FloatArgument v)
  end.

(** [int(v)] *)
Definition py_int (v : json) : outcome Z :=
  match v with
  | JInt n => Ok n
  | JBool b => Ok (if b then 1 else 0)%Z
  | JFloat x =>
    match trunc x with
    | Truncated n => Ok n
    | OfNaN => raise ValueError NaNToInt
    | OfInfinity => raise OverflowError InfinityToInt
    end
  | JStr s =>
    match int_of_str env s with
    | Some n => Ok n
    | None => raise ValueError (IntLiteral s)
    end
  | JNull | JList _ | JDict _ => raise TypeError (IntArgument v)
  end.

(** [bool(v)] *)
Definition py_bool (v : json) : bool :=
  match v with
  | JNull => false
  | JBool b => b
  | JInt n => negb (n =? 0)%Z
  | JFloat x => negb (x =? 0.0)
  | JStr s => negb (Nat.eqb (length s) 0)
  | JList items => negb (Nat.eqb (length items) 0)
  | JDict members => negb (Nat.eqb (length members) 0)
  end.

(** [str(v)] *)
Definition py_str (v : json) : str :=
  match v with
  | JStr s => s
  | _ => repr env v
  end.

(** The items a [for] loop over [v] visits. *)
Definition iterate (v : json) : outcome (list json) :=
  match v with
  | JList items => Ok items
  | JDict members => Ok (map (fun kv => JStr (fst kv)) members)
  | JStr s => Ok (map (fun c => JStr [c]) s)
  | JNull | JBool _ | JInt _ | JFloat _ => raise TypeError (NotIterable v)
  end.

End Builtins.

(** ** The agents ([insight_engine/agents]) *)

(** The first lines of every [_parse_response]: what is left of the response
    text once the surrounding white space and code fence are removed.  The
    four agents repeat these lines verbatim. *)
Definition strip_fences (response_text : str) : str :=
  let response_text := strip response_text in
  let response_text :=
    if startswith (lit "```json") response_text
    then slice_from 7 response_text else response_text in
  let response_text :=
    if startswith (lit "```") response_text
    then slice_from 3 response_text else response_text in
  let response_text :=
    if endswith (lit "```") response_text
    then slice_to_minus 3 response_text else response_text in
  strip response_text.

Definition parse_failed : str := lit "Failed to parse analysis result: ".
Definition analysis_failed : str := lit "Error during analysis: ".

(** [d.get(key, default)] on a value known to be a [dict]. *)
Definition member (members : list (str * json)) (key : str) (default : json) : json :=
  match lookup key members with Some x => x | None => default end.

Module ReasoningDepthAgent.

(** The [dict] that [analyze] returns. *)
Record analysis := {
  score : float;
  has_causal_analysis : bool;
  has_comparative_analysis : bool;
  analysis_levels : Z;
  depth_explanation : str
}.

Definition template_head : str := Eval vm_compute in
  join_lines
    [
     lit "你是一位专业的财经文章评审专家，专门评估文章的推理深度（Reasoning Depth）。";
     [];
     lit "请分析以下财经文章的推理深度，评估标准包括：";
     [];
     lit "1. **多角度分析**: 文章是否从多个角度分析问题（如市场、政策、技术、竞争等）";
     lit "2. **多层次分析**: 分析是否有层次递进（表面现象 → 深层原因 → 潜在影响）";
     lit "3. **因果分析**: 是否进行了清晰的因果关系分析";
     lit "4. **比较分析**: 是否进行了有意义的比较（如历史对比、同行对比等）";
     lit "5. **深度推演**: 是否有深入的逻辑推演，而非仅仅罗列事实";
     [];
     lit "文章内容：";
     [] ].

Definition template_tail : str := Eval vm_compute in
  join_lines
    [
     [];
     [];
     lit "请以JSON格式返回分析结果：";
     lit "{";
     lit "    " ++ dq ++ lit "score" ++ dq ++ lit ": 0.0-1.0的评分,";
     lit "    " ++ dq ++ lit "has_causal_analysis" ++ dq ++ lit ": true/false,";
     lit "    " ++ dq ++ lit "has_comparative_analysis" ++ dq ++ lit ": true/false,";
     lit "    " ++ dq ++ lit "analysis_levels" ++ dq ++ lit ": 检测到的分析层次数量（1-5）,";
     lit "    " ++ dq ++ lit "depth_explanation" ++ dq ++ lit ": " ++ dq ++ lit "详细解释推理深度的评估，包括具体例子和改进建议" ++ dq;
     lit "}";
     [];
     lit "只返回JSON，不要其他内容。" ].

Definition _create_analysis_prompt (article_text : str) : str :=
  template_head ++ article_text ++ template_tail.

Definition fallback (reason : str) (e : exn) : analysis :=
  {| score := 0.5;
     has_causal_analysis := false;
     has_comparative_analysis := false;
     analysis_levels := 1;
     depth_explanation := reason ++ exn_str e |}.

Section Agent.

Variable env : environment.

(** What [_parse_response] makes of the decoded response. *)
Definition normalize (result : json) : outcome analysis :=
  v1 <- get env result (lit "score") (JFloat 0.5) ;;
  x1 <- py_float env v1 ;;
  v2 <- get env result (lit "has_causal_analysis") (JBool false) ;;
  v3 <- get env result (lit "has_comparative_analysis") (JBool false) ;;
  v4 <- get env result (lit "analysis_levels") (JInt 1) ;;
  n4 <- py_int env v4 ;;
  v5 <- get env result (lit "depth_explanation") (JStr []) ;;
  Ok {| score := py_max 0.0 (py_min 1.0 x1);
        has_causal_analysis := py_bool v2;
        has_comparative_analysis := py_bool v3;
        analysis_levels := Z.max 1 (Z.min 5 n4);
        depth_explanation := py_str env v5 |}.

(** The [try] block of [_parse_response]. *)
Definition parse (response_text : str) : outcome analysis :=
  result <- json_loads env (strip_fences response_text) ;;
  normalize result.

Definition _parse_response (response_text : str) : outcome analysis :=
  try_except (parse response_text) parse_errors
    (fun e => Ok (fallback parse_failed e)).

Definition analyze (article_text : str) : outcome analysis :=
  let prompt := _create_analysis_prompt article_text in
  try_except
    (response <- llm_invoke env ReasoningDepth prompt ;;
     _parse_response response)
    any_exception
    (fun e => Ok (fallback analysis_failed e)).

End Agent.

End ReasoningDepthAgent.

Module ArgumentStructureAgent.

(** One parsed component: the values under its three keys, as decoded. *)
Record component := {
  type : json;
  content : json;
  location : json
}.

Record analysis := {
  score : float;
  has_clear_structure : bool;
  paragraph_coherence : float;
  argument_components : list component;
  structure_explanation : str
}.

Definition template_head : str := Eval vm_compute in
  join_lines
    [
     lit "你是一位专业的财经文章评审专家，专门评估文章的论证结构（Argument Structure）。";
     [];
     lit "请分析以下财经文章的论证结构质量，评估标准包括：";
     [];
     lit "1. **逻辑次序**: 文章各部分是否按合理的逻辑顺序排列";
     lit "2. **段落衔接**: 段落之间的衔接是否自然流畅";
     lit "3. **论点-论据-结论关系**: 三者关系是否严密，论据是否充分支持论点";
     lit "4. **结构清晰度**: 整体结构是否清晰，读者能否轻松跟随论证思路";
     lit "5. **论证完整性**: 从问题到结论的论证链条是否完整";
     [];
     lit "文章内容：";
     [] ].

Definition template_tail : str := Eval vm_compute in
  join_lines
    [
     [];
     [];
     lit "请以JSON格式返回分析结果：";
     lit "{";
     lit "    " ++ dq ++ lit "score" ++ dq ++ lit ": 0.0-1.0的评分,";
     lit "    " ++ dq ++ lit "has_clear_structure" ++ dq ++ lit ": true/false,";
     lit "    " ++ dq ++ lit "paragraph_coherence" ++ dq ++ lit ": 0.0-1.0的段落连贯性评分,";
     lit "    " ++ dq ++ lit "argument_components" ++ dq ++ lit ": [";
     lit "        {" ++ dq ++ lit "type" ++ dq ++ lit ": " ++ dq ++ lit "claim/evidence/reasoning/conclusion" ++ dq ++ lit ", " ++ dq ++ lit "content" ++ dq ++ lit ": " ++ dq ++ lit "内容摘要" ++ dq ++ lit ", " ++ dq ++ lit "location" ++ dq ++ lit ": " ++ dq ++ lit "位置描述" ++ dq ++ lit "},";
     lit "        ...";
     lit "    ],";
     lit "    " ++ dq ++ lit "structure_explanation" ++ dq ++ lit ": " ++ dq ++ lit "详细解释论证结构的评估，包括具体例子和改进建议" ++ dq;
     lit "}";
     [];
     lit "只返回JSON，不要其他内容。" ].

Definition _create_analysis_prompt (article_text : str) : str :=
  template_head ++ article_text ++ template_tail.

Definition fallback (reason : str) (e : exn) : analysis :=
  {| score := 0.5;
     has_clear_structure := false;
     paragraph_coherence := 0.5;
     argument_components := [];
     structure_explanation := reason ++ exn_str e |}.

(** The dictionary [_parse_components] appends for a [dict] entry. *)
Definition component_dict (members : list (str * json)) : component :=
  {| type := member members (lit "type") (JStr (lit "unknown"));
     content := member members (lit "content") (JStr []);
     location := member members (lit "location") (JStr []) |}.

(** The body of the loop of [_parse_components]. *)
Definition parse_component (parsed : list component) (comp : json) : list component :=
  match comp with
  | JDict members => parsed ++ [component_dict members]
  | _ => parsed
  end.

Section Agent.

Variable env : environment.

Definition _parse_components (components_data : json) : outcome (list component) :=
  items <- iterate env components_data ;;
  Ok (fold_left parse_component items []).

(** What [_parse_response] makes of the decoded response. *)
Definition normalize (result : json) : outcome analysis :=
  v1 <- get env result (lit "score") (JFloat 0.5) ;;
  x1 <- py_float env v1 ;;
  v2 <- get env result (lit "has_clear_structure") (JBool false) ;;
  v3 <- get env result (lit "paragraph_coherence") (JFloat 0.5) ;;
  x3 <- py_float env v3 ;;
  v4 <- get env result (lit "argument_components") (JList []) ;;
  l4 <- _parse_components v4 ;;
  v5 <- get env result (lit "structure_explanation") (JStr []) ;;
  Ok {| score := py_max 0.0 (py_min 1.0 x1);
        has_clear_structure := py_bool v2;
        paragraph_coherence := py_max 0.0 (py_min 1.0 x3);
        argument_components := l4;
        structure_explanation := py_str env v5 |}.

(** The [try] block of [_parse_response]. *)
Definition parse (response_text : str) : outcome analysis :=
  result <- json_loads env (strip_fences response_text) ;;
  normalize result.

Definition _parse_response (response_text : str) : outcome analysis :=
  try_except (parse response_text) parse_errors
    (fun e => Ok (fallback parse_failed e)).

Definition analyze (article_text : str) : outcome analysis :=
  let prompt := _create_analysis_prompt article_text in
  try_except
    (response <- llm_invoke env ArgumentStructure prompt ;;
     _parse_response response)
    any_exception
    (fun e => Ok (fallback analysis_failed e)).

End Agent.

End ArgumentStructureAgent.

Module ConsistencyAgent.

Record analysis := {
  score : float;
  contradictions : list str;
  consistency_explanation : str
}.

Definition template_head : str := Eval vm_compute in
  join_lines
    [
     lit "你是一位专业的财经文章评审专家，专门检查文章的内部一致性（Consistency）。";
     [];
     lit "请分析以下财经文章，检查是否存在内部矛盾或不一致的地方，包括：";
     [];
     lit "1. **论述矛盾**: 文章前后论述是否相互矛盾";
     lit "2. **数据矛盾**: 引用的数据、事实是否前后一致";
     lit "3. **立场矛盾**: 文章的观点和立场是否一致";
     lit "4. **逻辑矛盾**: 推理过程是否自洽";
     lit "5. **结论与论据的一致性**: 结论是否与前文论据相符";
     [];
     lit "文章内容：";
     [] ].

Definition template_tail : str := Eval vm_compute in
  join_lines
    [
     [];
     [];
     lit "请以JSON格式返回分析结果：";
     lit "{";
     lit "    " ++ dq ++ lit "score" ++ dq ++ lit ": 0.0-1.0的评分（1.0表示完全一致，0.0表示严重矛盾）,";
     lit "    " ++ dq ++ lit "contradictions" ++ dq ++ lit ": [";
     lit "        " ++ dq ++ lit "检测到的矛盾描述1" ++ dq ++ lit ",";
     lit "        " ++ dq ++ lit "检测到的矛盾描述2" ++ dq ++ lit ",";
     lit "        ...";
     lit "    ],";
     lit "    " ++ dq ++ lit "consistency_explanation" ++ dq ++ lit ": " ++ dq ++ lit "详细解释一致性检查的结果，包括具体例子" ++ dq;
     lit "}";
     [];
     lit "只返回JSON，不要其他内容。" ].

Definition _create_analysis_prompt (article_text : str) : str :=
  template_head ++ article_text ++ template_tail.

Definition fallback (reason : str) (e : exn) : analysis :=
  {| score := 0.7;
     contradictions := [];
     consistency_explanation := reason ++ exn_str e |}.

Section Agent.

Variable env : environment.

(** What [_parse_response] makes of the decoded response. *)
Definition normalize (result : json) : outcome analysis :=
  contradictions <- get env result (lit "contradictions") (JList []) ;;
  let contradictions :=
    match contradictions with
    | JList items => items
    | _ => []
    end in
  v1 <- get env result (lit "score") (JFloat 0.7) ;;
  x1 <- py_float env v1 ;;
  v3 <- get env result (lit "consistency_explanation") (JStr []) ;;
  Ok {| score := py_max 0.0 (py_min 1.0 x1);
        contradictions := map (py_str env) contradictions;
        consistency_explanation := py_str env v3 |}.

(** The [try] block of [_parse_response]. *)
Definition parse (response_text : str) : outcome analysis :=
  result <- json_loads env (strip_fences response_text) ;;
  normalize result.

Definition _parse_response (response_text : str) : outcome analysis :=
  try_except (parse response_text) parse_errors
    (fun e => Ok (fallback parse_failed e)).

Definition analyze (article_text : str) : outcome analysis :=
  let prompt := _create_analysis_prompt article_text in
  try_except
    (response <- llm_invoke env Consistency prompt ;;
     _parse_response response)
    any_exception
    (fun e => Ok (fallback analysis_failed e)).

End Agent.

End ConsistencyAgent.

Module LogicalFallacyAgent.

(** One parsed fallacy: [fallacy_dict]. *)
Record fallacy := {
  type : json;
  location : json;
  description : json;
  severity : float
}.

Record analysis := {
  score : float;
  fallacies : list fallacy;
  fallacy_explanation : str
}.

Definition template_head : str := Eval vm_compute in
  join_lines
    [
     lit "你是一位专业的财经文章评审专家，专门检测文章中的逻辑谬误（Logical Fallacies）。";
     [];
     lit "请分析以下财经文章，检测可能存在的逻辑谬误，包括但不限于：";
     [];
     lit "1. **以偏概全** (overgeneralization): 从少数案例推广到全体";
     lit "2. **因果倒置** (causal_reversal): 混淆因果关系的方向";
     lit "3. **非此即彼** (false_dilemma): 错误地将问题简化为两个选项";
     lit "4. **滑坡谬误** (slippery_slope): 认为一个小变化会导致连锁的极端后果";
     lit "5. **循环论证** (circular_reasoning): 用结论来证明结论";
     lit "6. **轻率概括** (hasty_generalization): 基于不充分的证据得出结论";
     lit "7. **后此谬误** (post_hoc): 认为先后发生的事件必然有因果关系";
     [];
     lit "文章内容：";
     [] ].

Definition template_tail : str := Eval vm_compute in
  join_lines
    [
     [];
     [];
     lit "请以JSON格式返回分析结果：";
     lit "{";
     lit "    " ++ dq ++ lit "score" ++ dq ++ lit ": 0.0-1.0的评分（1.0表示没有谬误，0.0表示严重谬误）,";
     lit "    " ++ dq ++ lit "fallacies" ++ dq ++ lit ": [";
     lit "        {";
     lit "            " ++ dq ++ lit "type" ++ dq ++ lit ": " ++ dq ++ lit "谬误类型（使用英文代码）" ++ dq ++ lit ",";
     lit "            " ++ dq ++ lit "location" ++ dq ++ lit ": " ++ dq ++ lit "谬误出现的位置描述" ++ dq ++ lit ",";
     lit "            " ++ dq ++ lit "description" ++ dq ++ lit ": " ++ dq ++ lit "谬误的详细描述" ++ dq ++ lit ",";
     lit "            " ++ dq ++ lit "severity" ++ dq ++ lit ": 0.0-1.0的严重程度";
     lit "        },";
     lit "        ...";
     lit "    ],";
     lit "    " ++ dq ++ lit "fallacy_explanation" ++ dq ++ lit ": " ++ dq ++ lit "总体说明检测到的逻辑谬误情况" ++ dq;
     lit "}";
     [];
     lit "只返回JSON，不要其他内容。" ].

Definition _create_analysis_prompt (article_text : str) : str :=
  template_head ++ article_text ++ template_tail.

Definition fallback (reason : str) (e : exn) : analysis :=
  {| score := 0.7;
     fallacies := [];
     fallacy_explanation := reason ++ exn_str e |}.

Section Agent.

Variable env : environment.

(** [fallacy_dict] for a [dict] entry [f]. *)
Definition fallacy_dict (members : list (str * json)) : outcome fallacy :=
  x <- py_float env (member members (lit "severity") (JFloat 0.5)) ;;
  Ok {| type := member members (lit "type") (JStr (lit "overgeneralization"));
        location := member members (lit "location") (JStr []);
        description := member members (lit "description") (JStr []);
        severity := py_max 0.0 (py_min 1.0 x) |}.

(** The loop over [result.get("fallacies", [])]: [items] are the entries
    still to visit, [fallacies] the list built so far. *)
Fixpoint parse_fallacies (items : list json) (fallacies : list fallacy)
    : outcome (list fallacy) :=
  match items with
  | [] => Ok fallacies
  | f :: rest =>
    match f with
    | JDict members =>
      fallacy_dict <- fallacy_dict members ;;
      parse_fallacies rest (fallacies ++ [fallacy_dict])
    | _ => parse_fallacies rest fallacies
    end
  end.

(** [score] as computed before the response's own ["score"] is looked
    up: the inverse of the average severity. *)
Definition derived_score (fallacies : list fallacy) : outcome float :=
  match fallacies with
  | [] => Ok 1.0
  | _ :: _ =>
    let n := Z.of_nat (length fallacies) in
    match of_int n with
    | Some len =>
      let avg_severity := py_sum (map severity fallacies) / len in
      Ok (py_max 0.0 (1.0 - avg_severity))
    | None => raise env OverflowError (IntTooLarge n)
    end
  end.

(** What [_parse_response] makes of the decoded response. *)
Definition normalize (result : json) : outcome analysis :=
  v0 <- get env result (lit "fallacies") (JList []) ;;
  items <- iterate env v0 ;;
  fallacies <- parse_fallacies items [] ;;
  score <- derived_score fallacies ;;
  v1 <- get env result (lit "score") (JFloat score) ;;
  x1 <- py_float env v1 ;;
  v3 <- get env result (lit "fallacy_explanation") (JStr []) ;;
  Ok {| score := py_max 0.0 (py_min 1.0 x1);
        fallacies := fallacies;
        fallacy_explanation := py_str env v3 |}.

(** The [try] block of [_parse_response]. *)
Definition parse (response_text : str) : outcome analysis :=
  result <- json_loads env (strip_fences response_text) ;;
  normalize result.

Definition _parse_response (response_text : str) : outcome analysis :=
  try_except (parse response_text) parse_errors
    (fun e => Ok (fallback parse_failed e)).

Definition analyze (article_text : str) : outcome analysis :=
  let prompt := _create_analysis_prompt article_text in
  try_except
    (response <- llm_invoke env LogicalFallacies prompt ;;
     _parse_response response)
    any_exception
    (fun e => Ok (fallback analysis_failed e)).

End Agent.

End LogicalFallacyAgent.

(** ** The data models ([insight_engine/models/evaluation.py])

    Each class is a record.  [create] is its constructor: pydantic checks the
    declared field types and bounds there and raises [ValidationError]. *)

Definition invalid {A} (env : environment) (model field : string) : outcome A :=
  raise env ValidationError (Invalid (lit model) (lit field)).

(** [Field(ge=0.0, le=1.0)] *)
Definition unit_field (env : environment) (model field : string) (x : float)
    : outcome float :=
  if between 0.0 1.0 x then Ok x else invalid env model field.

(** A field declared [str]. *)
Definition text_field (env : environment) (model field : string) (v : json)
    : outcome str :=
  match str_field env v with
  | Some s => Ok s
  | None => invalid env model field
  end.

(** A list comprehension whose element expression may raise. *)
Fixpoint traverse {A B} (f : A -> outcome B) (l : list A) : outcome (list B) :=
  match l with
  | [] => Ok []
  | a :: l' => b <- f a ;; bs <- traverse f l' ;; Ok (b :: bs)
  end.

Module LogicalFallacyType.

Inductive t :=
| OVERGENERALIZATION | CAUSAL_REVERSAL | FALSE_DILEMMA | SLIPPERY_SLOPE
| AD_HOMINEM | CIRCULAR_REASONING | STRAWMAN | HASTY_GENERALIZATION
| POST_HOC.

Definition value (x : t) : str :=
  match x with
  | OVERGENERALIZATION => lit "overgeneralization"
  | CAUSAL_REVERSAL => lit "causal_reversal"
  | FALSE_DILEMMA => lit "false_dilemma"
  | SLIPPERY_SLOPE => lit "slippery_slope"
  | AD_HOMINEM => lit "ad_hominem"
  | CIRCULAR_REASONING => lit "circular_reasoning"
  | STRAWMAN => lit "strawman"
  | HASTY_GENERALIZATION => lit "hasty_generalization"
  | POST_HOC => lit "post_hoc"
  end.

Definition members : list t :=
  [ OVERGENERALIZATION; CAUSAL_REVERSAL; FALSE_DILEMMA; SLIPPERY_SLOPE;
    AD_HOMINEM; CIRCULAR_REASONING; STRAWMAN; HASTY_GENERALIZATION;
    POST_HOC ].

(** The member a decoded value denotes: a [str] equal to a member's value. *)
Definition of_json (v : json) : option t :=
  match v with
  | JStr s => find (fun x => str_eqb s (value x)) members
  | _ => None
  end.

End LogicalFallacyType.

Module LogicalFallacy.

Record t := {
  type : LogicalFallacyType.t;
  location : str;
  description : str;
  severity : float
}.

Definition create (env : environment) (f : LogicalFallacyAgent.fallacy) : outcome t :=
  ty <- match LogicalFallacyType.of_json (LogicalFallacyAgent.type f) with
        | Some x => Ok x
        | None => invalid env "LogicalFallacy" "type"
        end ;;
  loc <- text_field env "LogicalFallacy" "location" (LogicalFallacyAgent.location f) ;;
  descr <- text_field env "LogicalFallacy" "description" (LogicalFallacyAgent.description f) ;;
  sev <- unit_field env "LogicalFallacy" "severity" (LogicalFallacyAgent.severity f) ;;
  Ok {| type := ty; location := loc; description := descr; severity := sev |}.

End LogicalFallacy.

Module ArgumentComponent.

Record t := {
  type : str;
  content : str;
  location : str
}.

Definition create (env : environment) (c : ArgumentStructureAgent.component) : outcome t :=
  ty <- text_field env "ArgumentComponent" "type" (ArgumentStructureAgent.type c) ;;
  con <- text_field env "ArgumentComponent" "content" (ArgumentStructureAgent.content c) ;;
  loc <- text_field env "ArgumentComponent" "location" (ArgumentStructureAgent.location c) ;;
  Ok {| type := ty; content := con; location := loc |}.

End ArgumentComponent.

Module ReasoningDepthResult.

Record t := {
  score : float;
  has_causal_analysis : bool;
  has_comparative_analysis : bool;
  analysis_levels : Z;
  depth_explanation : str
}.

Definition create (env : environment) (d : ReasoningDepthAgent.analysis) : outcome t :=
  s <- unit_field env "ReasoningDepthResult" "score" (ReasoningDepthAgent.score d) ;;
  Ok {| score := s;
        has_causal_analysis := ReasoningDepthAgent.has_causal_analysis d;
        has_comparative_analysis := ReasoningDepthAgent.has_comparative_analysis d;
        analysis_levels := ReasoningDepthAgent.analysis_levels d;
        depth_explanation := ReasoningDepthAgent.depth_explanation d |}.

End ReasoningDepthResult.

Module ArgumentStructureResult.

Record t := {
  score : float;
  has_clear_structure : bool;
  paragraph_coherence : float;
  argument_components : list ArgumentComponent.t;
  structure_explanation : str
}.

Definition create (env : environment) (d : ArgumentStructureAgent.analysis)
    (components : list ArgumentComponent.t) : outcome t :=
  s <- unit_field env "ArgumentStructureResult" "score" (ArgumentStructureAgent.score d) ;;
  c <- unit_field env "ArgumentStructureResult" "paragraph_coherence"
         (ArgumentStructureAgent.paragraph_coherence d) ;;
  Ok {| score := s;
        has_clear_structure := ArgumentStructureAgent.has_clear_structure d;
        paragraph_coherence := c;
        argument_components := components;
        structure_explanation := ArgumentStructureAgent.structure_explanation d |}.

End ArgumentStructureResult.

Module ConsistencyResult.

Record t := {
  score : float;
  contradictions : list str;
  consistency_explanation : str
}.

Definition create (env : environment) (d : ConsistencyAgent.analysis) : outcome t :=
  s <- unit_field env "ConsistencyResult" "score" (ConsistencyAgent.score d) ;;
  Ok {| score := s;
        contradictions := ConsistencyAgent.contradictions d;
        consistency_explanation := ConsistencyAgent.consistency_explanation d |}.

End ConsistencyResult.

Module LogicalFallacyResult.

Record t := {
  score : float;
  fallacies : list LogicalFallacy.t;
  fallacy_explanation : str
}.

Definition create (env : environment) (d : LogicalFallacyAgent.analysis)
    (fallacies : list LogicalFallacy.t) : outcome t :=
  s <- unit_field env "LogicalFallacyResult" "score" (LogicalFallacyAgent.score d) ;;
  Ok {| score := s;
        fallacies := fallacies;
        fallacy_explanation := LogicalFallacyAgent.fallacy_explanation d |}.

End LogicalFallacyResult.

Module ReasoningLogicEvaluation.

Record t := {
  article_title : option str;
  overall_score : float;
  reasoning_depth : ReasoningDepthResult.t;
  argument_structure : ArgumentStructureResult.t;
  consistency : ConsistencyResult.t;
  logical_fallacies : LogicalFallacyResult.t;
  strengths : list str;
  weaknesses : list str;
  recommendations : list str
}.

Definition create (env : environment) (title : option str) (overall : float)
    (rd : ReasoningDepthResult.t) (ast : ArgumentStructureResult.t)
    (cs : ConsistencyResult.t) (lf : LogicalFallacyResult.t)
    (strengths weaknesses recommendations : list str) : outcome t :=
  o <- unit_field env "ReasoningLogicEvaluation" "overall_score" overall ;;
  Ok {| article_title := title;
        overall_score := o;
        reasoning_depth := rd;
        argument_structure := ast;
        consistency := cs;
        logical_fallacies := lf;
        strengths := strengths;
        weaknesses := weaknesses;
        recommendations := recommendations |}.

End ReasoningLogicEvaluation.

(** ** The evaluator ([insight_engine/evaluators/reasoning_logic_evaluator.py]) *)

Module ReasoningLogicEvaluator.

(** The [weights] dictionary of [_calculate_overall_score]. *)
Definition weights (key : agent_name) : float :=
  match key with
  | ReasoningDepth => 0.30
  | ArgumentStructure => 0.30
  | Consistency => 0.25
  | LogicalFallacies => 0.15
  end.

Definition _calculate_overall_score
    (reasoning_depth : ReasoningDepthResult.t)
    (argument_structure : ArgumentStructureResult.t)
    (consistency : ConsistencyResult.t)
    (logical_fallacies : LogicalFallacyResult.t) : float :=
  let overall :=
    ReasoningDepthResult.score reasoning_depth * weights ReasoningDepth
    + ArgumentStructureResult.score argument_structure * weights ArgumentStructure
    + ConsistencyResult.score consistency * weights Consistency
    + LogicalFallacyResult.score logical_fallacies * weights LogicalFallacies in
  py_round overall 3.

(** The two lists [_identify_strengths_weaknesses] appends to. *)
Record findings := { strengths : list str; weaknesses : list str }.

Definition strength (s : str) (f : findings) : findings :=
  {| strengths := strengths f ++ [s]; weaknesses := weaknesses f |}.

Definition weakness (s : str) (f : findings) : findings :=
  {| strengths := strengths f; weaknesses := weaknesses f ++ [s] |}.

(** [if cond: step] *)
Definition when {S} (cond : bool) (step : S -> S) (st : S) : S :=
  if cond then step st else st.

Definition len {A} (l : list A) : Z := Z.of_nat (length l).

(** The four blocks of [_identify_strengths_weaknesses], in order. *)
Definition depth_findings (reasoning_depth : ReasoningDepthResult.t)
    (f : findings) : findings :=
  let r := reasoning_depth in
  if 0.7 <=? ReasoningDepthResult.score r then
    let f := when (ReasoningDepthResult.has_causal_analysis r)
               (strength (lit "包含清晰的因果分析")) f in
    let f := when (ReasoningDepthResult.has_comparative_analysis r)
               (strength (lit "进行了有效的比较分析")) f in
    when (3 <=? ReasoningDepthResult.analysis_levels r)%Z
      (strength (lit "具有" ++ of_Z (ReasoningDepthResult.analysis_levels r)
                 ++ lit "层次的深入分析")) f
  else
    let f := when (negb (ReasoningDepthResult.has_causal_analysis r))
               (weakness (lit "缺乏因果关系分析")) f in
    let f := when (negb (ReasoningDepthResult.has_comparative_analysis r))
               (weakness (lit "缺少比较分析")) f in
    when (ReasoningDepthResult.analysis_levels r <? 2)%Z
      (weakness (lit "分析层次不够深入")) f.

Definition structure_findings (argument_structure : ArgumentStructureResult.t)
    (f : findings) : findings :=
  let a := argument_structure in
  if 0.7 <=? ArgumentStructureResult.score a then
    let f := when (ArgumentStructureResult.has_clear_structure a)
               (strength (lit "论证结构清晰有序")) f in
    when (0.7 <=? ArgumentStructureResult.paragraph_coherence a)
      (strength (lit "段落衔接自然流畅")) f
  else
    let f := when (negb (ArgumentStructureResult.has_clear_structure a))
               (weakness (lit "论证结构不够清晰")) f in
    when (ArgumentStructureResult.paragraph_coherence a <? 0.6)
      (weakness (lit "段落衔接有待改进")) f.

Definition consistency_findings (consistency : ConsistencyResult.t)
    (f : findings) : findings :=
  let c := consistency in
  if 0.8 <=? ConsistencyResult.score c then
    strength (lit "内部逻辑一致，无明显矛盾") f
  else
    match ConsistencyResult.contradictions c with
    | _ :: _ =>
      weakness (lit "存在" ++ of_Z (len (ConsistencyResult.contradictions c))
                ++ lit "处内部矛盾") f
    | [] => f
    end.

Definition fallacy_findings (logical_fallacies : LogicalFallacyResult.t)
    (f : findings) : findings :=
  let l := logical_fallacies in
  if 0.8 <=? LogicalFallacyResult.score l then
    strength (lit "论证严谨，无明显逻辑谬误") f
  else
    match LogicalFallacyResult.fallacies l with
    | _ :: _ =>
      weakness (lit "检测到" ++ of_Z (len (LogicalFallacyResult.fallacies l))
                ++ lit "个逻辑谬误") f
    | [] => f
    end.

Definition _identify_strengths_weaknesses
    (reasoning_depth : ReasoningDepthResult.t)
    (argument_structure : ArgumentStructureResult.t)
    (consistency : ConsistencyResult.t)
    (logical_fallacies : LogicalFallacyResult.t) : list str * list str :=
  let f := {| strengths := []; weaknesses := [] |} in
  let f := depth_findings reasoning_depth f in
  let f := structure_findings argument_structure f in
  let f := consistency_findings consistency f in
  let f := fallacy_findings logical_fallacies f in
  (strengths f, weaknesses f).

(** [recommendations.append(s)] *)
Definition recommend (s : str) (recommendations : list str) : list str :=
  recommendations ++ [s].

(** The four blocks of [_generate_recommendations], in order. *)
Definition depth_recommendations (reasoning_depth : ReasoningDepthResult.t)
    (rs : list str) : list str :=
  let r := reasoning_depth in
  if ReasoningDepthResult.score r <? 0.7 then
    let rs := when (negb (ReasoningDepthResult.has_causal_analysis r))
                (recommend (lit "增加因果关系分析，探讨现象背后的原因和影响")) rs in
    let rs := when (negb (ReasoningDepthResult.has_comparative_analysis r))
                (recommend (lit "加入比较分析，如历史对比或同行业对比")) rs in
    when (ReasoningDepthResult.analysis_levels r <? 2)%Z
      (recommend (lit "深化分析层次，从表面现象深入到深层原因和潜在影响")) rs
  else rs.

Definition structure_recommendations (argument_structure : ArgumentStructureResult.t)
    (rs : list str) : list str :=
  let a := argument_structure in
  if ArgumentStructureResult.score a <? 0.7 then
    let rs := when (negb (ArgumentStructureResult.has_clear_structure a))
                (recommend (lit "优化文章结构，确保论点、论据、结论的逻辑顺序清晰")) rs in
    when (ArgumentStructureResult.paragraph_coherence a <? 0.6)
      (recommend (lit "改善段落间的衔接，使用过渡句使论述更流畅")) rs
  else rs.

Definition consistency_recommendations (consistency : ConsistencyResult.t)
    (rs : list str) : list str :=
  let c := consistency in
  if (ConsistencyResult.score c <? 0.8)
     && negb (Nat.eqb (length (ConsistencyResult.contradictions c)) 0)
  then recommend (lit "检查并解决内部矛盾，确保论述前后一致") rs
  else rs.

Definition fallacy_recommendations (logical_fallacies : LogicalFallacyResult.t)
    (rs : list str) : list str :=
  let l := logical_fallacies in
  match LogicalFallacyResult.fallacies l with
  | _ :: _ =>
    fold_left
      (fun rs fallacy =>
         recommend (lit "修正逻辑谬误：" ++ LogicalFallacy.description fallacy) rs)
      (firstn 2 (LogicalFallacyResult.fallacies l)) rs
  | [] => rs
  end.

Definition _generate_recommendations
    (reasoning_depth : ReasoningDepthResult.t)
    (argument_structure : ArgumentStructureResult.t)
    (consistency : ConsistencyResult.t)
    (logical_fallacies : LogicalFallacyResult.t) : list str :=
  let rs := [] in
  let rs := depth_recommendations reasoning_depth rs in
  let rs := structure_recommendations argument_structure rs in
  let rs := consistency_recommendations consistency rs in
  let rs := fallacy_recommendations logical_fallacies rs in
  rs.

Section Evaluate.

Variable env : environment.

(** [evaluate]; the progress lines it prints are left out. *)
Definition evaluate (article_text : str) (article_title : option str)
    : outcome ReasoningLogicEvaluation.t :=
  reasoning_depth_data <- ReasoningDepthAgent.analyze env article_text ;;
  reasoning_depth <- ReasoningDepthResult.create env reasoning_depth_data ;;
  argument_structure_data <- ArgumentStructureAgent.analyze env article_text ;;
  components <- traverse (ArgumentComponent.create env)
                  (ArgumentStructureAgent.argument_components argument_structure_data) ;;
  argument_structure <- ArgumentStructureResult.create env
                          argument_structure_data components ;;
  logical_fallacy_data <- LogicalFallacyAgent.analyze env article_text ;;
  fallacies <- traverse (LogicalFallacy.create env)
                 (LogicalFallacyAgent.fallacies logical_fallacy_data) ;;
  logical_fallacies <- LogicalFallacyResult.create env
                         logical_fallacy_data fallacies ;;
  consistency_data <- ConsistencyAgent.analyze env article_text ;;
  consistency <- ConsistencyResult.create env consistency_data ;;
  let overall_score :=
    _calculate_overall_score reasoning_depth argument_structure
      consistency logical_fallacies in
  let '(strengths, weaknesses) :=
    _identify_strengths_weaknesses reasoning_depth argument_structure
      consistency logical_fallacies in
  let recommendations :=
    _generate_recommendations reasoning_depth argument_structure
      consistency logical_fallacies in
  ReasoningLogicEvaluation.create env article_title overall_score
    reasoning_depth argument_structure consistency logical_fallacies
    strengths weaknesses recommendations.

End Evaluate.

End ReasoningLogicEvaluator.

(** ** Vocabulary of the properties *)

(** A character that can begin, or end, a JSON text that [json.loads]
    accepts. *)
Definition opens_json (c : char) : bool :=
  existsb (N.eqb c) (lit "{[-0123456789tfnNI" ++ dq).
Definition closes_json (c : char) : bool :=
  existsb (N.eqb c) (lit "}]0123456789elNy" ++ dq).

(** The ends of a JSON text: it begins and ends as one. *)
Definition json_text (s : str) : bool :=
  match s with
  | [] => false
  | c :: _ => opens_json c && closes_json (last s c)
  end.

(** White space only. *)
Definition blank (s : str) : bool := forallb isspace s.

(** A payload inside a code fence; [tag] follows the opening fence at once. *)
Definition fenced (tag payload : str) : str :=
  lit "```" ++ tag ++ payload ++ lit "```".

Definition is_nan (x : float) : bool :=
  match x with S754_nan => true | _ => false end.

(** A number that is not below zero. *)
Definition nonneg (x : float) : bool :=
  match x with
  | S754_nan => false
  | S754_zero _ => true
  | S754_infinity s | S754_finite s _ _ => negb s
  end.

(** A number of the given sign. *)
Definition signed (s : bool) (x : float) : Prop :=
  match x with
  | S754_nan => False
  | S754_zero s' | S754_infinity s' | S754_finite s' _ _ => s' = s
  end.

Definition positive_number (x : float) : Prop :=
  match x with
  | S754_infinity false | S754_finite false _ _ => True
  | _ => False
  end.

(** The exact value of a finite float [m * 2^e], times [1000], lies within
    one half of the integer [n]. *)
Definition nearest_thousandth (m : positive) (e n : Z) : Prop :=
  (Z.abs (2 * (1000 * Zpos m * 2 ^ Z.max 0 e) - 2 * n * 2 ^ Z.max 0 (- e))
   <= 2 ^ Z.max 0 (- e))%Z.

(** The score the fallacy parser is specified to derive when the response
    has no ["score"]: one minus the average severity, clamped to the unit
    interval, and one when there is no fallacy. *)
Definition average_severity (fallacies : list LogicalFallacyAgent.fallacy) : float :=
  py_sum (map LogicalFallacyAgent.severity fallacies)
  / nearest (Z.of_nat (length fallacies)).

Definition spec_derived_score (fallacies : list LogicalFallacyAgent.fallacy) : float :=
  match fallacies with
  | [] => 1.0
  | _ :: _ => py_max 0.0 (py_min 1.0 (1.0 - average_severity fallacies))
  end.

(** A parsed fallacy whose severity lies in the unit interval. *)
Definition bounded_severity (f : LogicalFallacyAgent.fallacy) : Prop :=
  between 0.0 1.0 (LogicalFallacyAgent.severity f) = true.

(** The entries of a list that are objects, in order. *)
Definition objects (items : list json) : list (list (str * json)) :=
  flat_map (fun v => match v with JDict members => [members] | _ => [] end) items.

(** Two objects that differ at most under [key]. *)
Definition same_but (key : str) (d d' : list (str * json)) : Prop :=
  forall k, str_eqb k key = false -> lookup k d = lookup k d'.

(** The findings of one block of [_identify_strengths_weaknesses] alone, and
    a block's findings put after earlier ones. *)
Definition no_findings : ReasoningLogicEvaluator.findings :=
  {| ReasoningLogicEvaluator.strengths := [];
     ReasoningLogicEvaluator.weaknesses := [] |}.

Definition extend (f g : ReasoningLogicEvaluator.findings) : ReasoningLogicEvaluator.findings :=
  {| ReasoningLogicEvaluator.strengths :=
       ReasoningLogicEvaluator.strengths f ++ ReasoningLogicEvaluator.strengths g;
     ReasoningLogicEvaluator.weaknesses :=
       ReasoningLogicEvaluator.weaknesses f ++ ReasoningLogicEvaluator.weaknesses g |}.

(** The two messages about paragraph coherence. *)
Definition coherence_weakness : str := lit "段落衔接有待改进".
Definition coherence_strength : str := lit "段落衔接自然流畅".

(** ** A sample environment

    An environment that agrees with the interpreter on the responses used
    in the examples below. *)

Module Sample.

Definition quoted (s : string) : str := dq ++ lit s ++ dq.

(** [I cannot analyse this article.] *)
Definition refusal : str := lit "I cannot analyse this article.".

(** [{}] *)
Definition empty_object : str := lit "{}".

(** [{"fallacies": [{"type": "appeal_to_authority", "location": "paragraph 2",
      "description": "cites a celebrity", "severity": 0.5}]}] *)
Definition unlisted_type : str :=
  lit "{" ++ quoted "fallacies" ++ lit ": [{" ++ quoted "type" ++ lit ": "
  ++ quoted "appeal_to_authority" ++ lit ", " ++ quoted "location" ++ lit ": "
  ++ quoted "paragraph 2" ++ lit ", " ++ quoted "description" ++ lit ": "
  ++ quoted "cites a celebrity" ++ lit ", " ++ quoted "severity"
  ++ lit ": 0.5}]}".

Definition unlisted_type_members : list (str * json) :=
  [ (lit "fallacies",
     JList [ JDict [ (lit "type", JStr (lit "appeal_to_authority"));
                     (lit "location", JStr (lit "paragraph 2"));
                     (lit "description", JStr (lit "cites a celebrity"));
                     (lit "severity", JFloat 0.5) ] ]) ].

(** [{"fallacies": [{"severity": 0.2}, {"severity": 0.8}]}] *)
Definition two_severities : str :=
  lit "{" ++ quoted "fallacies" ++ lit ": [{" ++ quoted "severity"
  ++ lit ": 0.2}, {" ++ quoted "severity" ++ lit ": 0.8}]}".

Definition two_severities_members : list (str * json) :=
  [ (lit "fallacies",
     JList [ JDict [ (lit "severity", JFloat 0.2) ];
             JDict [ (lit "severity", JFloat 0.8) ] ]) ].

(** [{"fallacies": [1, {"severity": 0.2}, "x", {"severity": 0.8}]}] *)
Definition two_severities_and_others : str :=
  lit "{" ++ quoted "fallacies" ++ lit ": [1, {" ++ quoted "severity"
  ++ lit ": 0.2}, " ++ quoted "x" ++ lit ", {" ++ quoted "severity"
  ++ lit ": 0.8}]}".

Definition two_severities_and_others_members : list (str * json) :=
  [ (lit "fallacies",
     JList [ JInt 1; JDict [ (lit "severity", JFloat 0.2) ];
             JStr (lit "x"); JDict [ (lit "severity", JFloat 0.8) ] ]) ].

(** [{"fallacies": [1, {"severity": "high"}]}] *)
Definition worded_severity : str :=
  lit "{" ++ quoted "fallacies" ++ lit ": [1, {" ++ quoted "severity"
  ++ lit ": " ++ quoted "high" ++ lit "}]}".

Definition worded_severity_members : list (str * json) :=
  [ (lit "fallacies",
     JList [ JInt 1; JDict [ (lit "severity", JStr (lit "high")) ] ]) ].

(** [{"argument_components": [{"type": "claim"}]}] *)
Definition one_component : str :=
  lit "{" ++ quoted "argument_components" ++ lit ": [{" ++ quoted "type"
  ++ lit ": " ++ quoted "claim" ++ lit "}]}".

Definition one_component_members : list (str * json) :=
  [ (lit "argument_components",
     JList [ JDict [ (lit "type", JStr (lit "claim")) ] ]) ].

(** [{"argument_components": [null, {"type": "claim"}, 3]}] *)
Definition one_component_and_others : str :=
  lit "{" ++ quoted "argument_components" ++ lit ": [null, {" ++ quoted "type"
  ++ lit ": " ++ quoted "claim" ++ lit "}, 3]}".

Definition one_component_and_others_members : list (str * json) :=
  [ (lit "argument_components",
     JList [ JNull; JDict [ (lit "type", JStr (lit "claim")) ]; JInt 3 ]) ].

(** What [json.loads] makes of the sample texts. *)
Definition decoded : list (str * json) :=
  [ (empty_object, JDict []);
    (unlisted_type, JDict unlisted_type_members);
    (two_severities, JDict two_severities_members);
    (two_severities_and_others, JDict two_severities_and_others_members);
    (worded_severity, JDict worded_severity_members);
    (one_component, JDict one_component_members);
    (one_component_and_others, JDict one_component_and_others_members) ].

Definition expecting_value : exn :=
  Exn JSONDecodeError (lit "Expecting value: line 1 column 1 (char 0)").

Definition loads (s : str) : outcome json :=
  match lookup s decoded with
  | Some v => Ok v
  | None => Raise expecting_value
  end.

Definition type_name (v : json) : str :=
  match v with
  | JNull => lit "NoneType"
  | JBool _ => lit "bool"
  | JInt _ => lit "int"
  | JFloat _ => lit "float"
  | JStr _ => lit "str"
  | JList _ => lit "list"
  | JDict _ => lit "dict"
  end.

Definition wording (f : failure) : str :=
  match f with
  | NoAttribute v attr =>
    lit "'" ++ type_name v ++ lit "' object has no attribute '" ++ attr ++ lit "'"
  | FloatArgument v =>
    lit "float() argument must be a string or a real number, not '"
    ++ type_name v ++ lit "'"
  | FloatLiteral s => lit "could not convert string to float: '" ++ s ++ lit "'"
  | IntArgument v =>
    lit "int() argument must be a string, a bytes-like object or a real number, not '"
    ++ type_name v ++ lit "'"
  | IntLiteral s => lit "invalid literal for int() with base 10: '" ++ s ++ lit "'"
  | IntTooLarge _ => lit "int too large to convert to float"
  | NaNToInt => lit "cannot convert float NaN to integer"
  | InfinityToInt => lit "cannot convert float infinity to integer"
  | NotIterable v => lit "'" ++ type_name v ++ lit "' object is not iterable"
  | Invalid model field => lit "1 validation error for " ++ model ++ nl ++ field
  end.

(** The environment in which each agent's model answers [answers agent].
    No sample holds a numeral inside a string or prints a value that is
    not a [str]. *)
Definition env (answers : agent_name -> outcome str) : environment :=
  {| llm_invoke := fun agent _ => answers agent;
     json_loads := loads;
     float_of_str := fun _ => None;
     int_of_str := fun _ => None;
     repr := type_name;
     message := wording;
     str_field := fun v => match v with JStr s => Some s | _ => None end |}.

(** Every model refuses, but the fallacy model, which answers [text]. *)
Definition fallacy_answer (text : str) (agent : agent_name) : outcome str :=
  match agent with
  | LogicalFallacies => Ok text
  | _ => Ok refusal
  end.

Definition article : str := lit "Shares rose after the rate cut.".

(** Component results with the given scores. *)
Definition depth (score : float) : ReasoningDepthResult.t :=
  {| ReasoningDepthResult.score := score;
     ReasoningDepthResult.has_causal_analysis := true;
     ReasoningDepthResult.has_comparative_analysis := false;
     ReasoningDepthResult.analysis_levels := 3;
     ReasoningDepthResult.depth_explanation := [] |}.

Definition structure (score coherence : float) : ArgumentStructureResult.t :=
  {| ArgumentStructureResult.score := score;
     ArgumentStructureResult.has_clear_structure := true;
     ArgumentStructureResult.paragraph_coherence := coherence;
     ArgumentStructureResult.argument_components := [];
     ArgumentStructureResult.structure_explanation := [] |}.

Definition consistency (score : float) : ConsistencyResult.t :=
  {| ConsistencyResult.score := score;
     ConsistencyResult.contradictions := [lit "the outlook is both up and down"];
     ConsistencyResult.consistency_explanation := [] |}.

Definition fallacy (n : Z) : LogicalFallacy.t :=
  {| LogicalFallacy.type := LogicalFallacyType.POST_HOC;
     LogicalFallacy.location := lit "paragraph " ++ of_Z n;
     LogicalFallacy.description := lit "fallacy " ++ of_Z n;
     LogicalFallacy.severity := 0.5 |}.

Definition fallacies (score : float) : LogicalFallacyResult.t :=
  {| LogicalFallacyResult.score := score;
     LogicalFallacyResult.fallacies := [fallacy 1; fallacy 2; fallacy 3];
     LogicalFallacyResult.fallacy_explanation := [] |}.

End Sample.

(** * Properties *)

Unset Implicit Arguments.

(** ** The embedding of literals and numbers *)

Example of_string_ascii : lit "```json" = [96; 96; 96; 106; 115; 111; 110]%N.
Proof. reflexivity. Qed.

Example of_string_cjk : lit "段落" = [27573; 33853]%N.
Proof. reflexivity. Qed.

Example of_Z_neg : of_Z (-305) = lit "-305".
Proof. reflexivity. Qed.

(** The literals and operations agree with the machine's binary64. *)
Example literal_samples :
  map Prim2SF [0.3; 0.7; 0.15; 0.25; 1; 0; 0.5; 1e22; 2.5e-3; 123456.789]%float
  = [0.3; 0.7; 0.15; 0.25; 1.0; 0.0; 0.5; 1e22; 2.5e-3; 123456.789].
Proof. vm_compute. reflexivity. Qed.

Example arithmetic_samples :
  Prim2SF (0.8 * 0.30 + 0.6 * 0.30 - 0.9 / 0.25)%float
  = 0.8 * 0.30 + 0.6 * 0.30 - 0.9 / 0.25.
Proof. vm_compute. reflexivity. Qed.

Example round_samples :
  py_round 0.75 3 = 0.75 /\ py_round 2.6745 3 = 2.675 /\
  py_round 0.0005 3 = 0.001 /\ py_round 0.0015 3 = 0.002 /\
  py_round (-0.0001) 3 = S754_zero true /\ py_round 1234.56789 3 = 1234.568 /\
  py_round 1e22 3 = 1e22 /\ py_round 0.1255 3 = 0.126 /\
  py_round 4503599627370497 3 = 4503599627370497 /\
  py_round 123456789012.34567 3 = 123456789012.346.
Proof. repeat split; vm_compute; reflexivity. Qed.

Example of_int_samples :
  of_int 3 = Some 3.0 /\ of_int (2 ^ 53 + 1) = Some 9007199254740992.0
  /\ of_int (2 ^ 1024) = None /\ trunc (-2.75) = Truncated (-2)
  /\ trunc 1e22 = Truncated (10 ^ 22).
Proof. repeat split; vm_compute; reflexivity. Qed.

(** ** Comparison of floats *)

Lemma ltb_leb (x y : float) : (x <? y) = true -> (x <=? y) = true.
Proof.
  unfold ltb, leb, SFltb, SFleb. destruct (SFcompare x y) as [[ | | ]|]; congruence.
Qed.

Lemma compare_antisym (x y : float) :
  SFcompare y x = option_map CompOpp (SFcompare x y).
Proof.
  destruct x as [[]|[]| |[] m1 e1], y as [[]|[]| |[] m2 e2]; try reflexivity; simpl;
    rewrite (Z.compare_antisym e1 e2);
    pose proof (Pos.compare_cont_antisym m1 m2 Eq) as A; simpl in A;
    destruct (e1 ?= e2)%Z; simpl; try reflexivity;
    destruct (Pos.compare_cont Eq m1 m2), (Pos.compare_cont Eq m2 m1);
    simpl in *; congruence.
Qed.

Lemma ltb_not_leb (x y : float) : (x <? y) = true -> (y <=? x) = false.
Proof.
  unfold ltb, leb, SFltb, SFleb. rewrite (compare_antisym x y).
  destruct (SFcompare x y) as [[ | | ]|]; simpl; congruence.
Qed.

Lemma leb_not_ltb (x y : float) : (x <=? y) = true -> (y <? x) = false.
Proof.
  unfold ltb, leb, SFltb, SFleb. rewrite (compare_antisym x y).
  destruct (SFcompare x y) as [[ | | ]|]; simpl; congruence.
Qed.

Lemma compare_number (x y : float) :
  is_nan x = false -> is_nan y = false -> SFcompare x y <> None.
Proof.
  destruct x as [[]|[]| |[] m1 e1], y as [[]|[]| |[] m2 e2]; simpl; congruence.
Qed.

Lemma leb_number_l (x y : float) : (x <=? y) = true -> is_nan x = false.
Proof. destruct x; [reflexivity | reflexivity | discriminate | reflexivity]. Qed.

Lemma leb_number_r (x y : float) : (x <=? y) = true -> is_nan y = false.
Proof.
  destruct y; try reflexivity. destruct x as [[]|[]| |[] ? ?]; discriminate.
Qed.

(** Among numbers, [not (y <= x)] is [x < y]. *)
Lemma not_leb_ltb (x y : float) :
  is_nan x = false -> is_nan y = false -> (y <=? x) = false -> (x <? y) = true.
Proof.
  intros Hx Hy. unfold ltb, leb, SFltb, SFleb. rewrite (compare_antisym x y).
  pose proof (compare_number x y Hx Hy) as H.
  destruct (SFcompare x y) as [[ | | ]|]; simpl; congruence.
Qed.

Lemma between_number (lo hi x : float) : between lo hi x = true -> is_nan x = false.
Proof.
  unfold between. intros H. apply andb_prop in H. destruct H as [H _].
  exact (leb_number_r _ _ H).
Qed.

(** [max(0.0, min(1.0, x))] lies in the unit interval whatever [x] is. *)
Lemma clamp_between (x : float) :
  between 0.0 1.0 (py_max 0.0 (py_min 1.0 x)) = true.
Proof.
  unfold py_max, py_min.
  destruct (x <? 1.0) eqn:H1.
  - destruct (0.0 <? x) eqn:H0.
    + unfold between. rewrite (ltb_leb _ _ H0), (ltb_leb _ _ H1). reflexivity.
    + reflexivity.
  - reflexivity.
Qed.


(** ** Rounding never yields a NaN *)

Section ShiftAndRound.

Local Open Scope Z_scope.

Lemma shr_1_m (mrs : shr_record) : shr_m (shr_1 mrs) = Z.quot2 (shr_m mrs).
Proof. destruct mrs as [[|[p|p|]|[p|p|]] r s]; reflexivity. Qed.

Lemma iter_pos_iter {A} (f : A -> A) (p : positive) (x : A) :
  iter_pos f p x = Pos.iter f x p.
Proof.
  revert x. induction p as [p IH|p IH|]; intros x; simpl.
  - rewrite !IH. rewrite <- !Pos.iter_swap. reflexivity.
  - rewrite !IH. reflexivity.
  - reflexivity.
Qed.

Lemma shr_iter_m (p : positive) (mrs : shr_record) :
  shr_m (Pos.iter shr_1 mrs p) = Pos.iter Z.quot2 (shr_m mrs) p.
Proof.
  rewrite !Pos2Nat.inj_iter.
  induction (Pos.to_nat p) as [|n IH]; simpl; [reflexivity|].
  rewrite shr_1_m, IH. reflexivity.
Qed.

Lemma quot2_div2 (a : Z) : 0 <= a -> Z.quot2 a = Z.div2 a.
Proof. destruct a as [|[q|q|]|q]; try reflexivity; lia. Qed.

Lemma quot2_iter_nonneg (p : positive) (m : Z) :
  0 <= m -> Pos.iter Z.quot2 m p = m / 2 ^ Zpos p.
Proof.
  intros Hm. rewrite <- Z.shiftr_div_pow2 by lia.
  change (Z.shiftr m (Zpos p)) with (Pos.iter Z.div2 m p).
  rewrite !Pos2Nat.inj_iter.
  induction (Pos.to_nat p) as [|n IH]; simpl; [reflexivity|].
  rewrite IH. set (a := Nat.iter n Z.div2 m).
  assert (0 <= a).
  { subst a. clear IH. induction n; simpl; [assumption|].
    rewrite Z.div2_div. apply Z.div_pos; lia. }
  apply quot2_div2. assumption.
Qed.

(** The shifted mantissa is the quotient by the power of two. *)
Lemma shr_m_div (mrs : shr_record) (e n : Z) :
  0 <= shr_m mrs -> 0 <= n ->
  shr_m (fst (shr mrs e n)) = shr_m mrs / 2 ^ n.
Proof.
  intros Hm Hn. destruct n as [|p|p]; simpl.
  - rewrite Z.div_1_r. reflexivity.
  - rewrite iter_pos_iter, shr_iter_m, quot2_iter_nonneg by assumption. reflexivity.
  - lia.
Qed.

Lemma shr_record_of_loc_m (m : Z) (l : location) :
  shr_m (shr_record_of_loc m l) = m.
Proof. destruct l as [|[]]; reflexivity. Qed.

Lemma shr_fexp_nonneg (m e : Z) (l : location) :
  0 <= m -> 0 <= shr_m (fst (shr_fexp prec emax m e l)).
Proof.
  intros Hm. unfold shr_fexp.
  set (n := _ - e). destruct (Z.le_gt_cases 0 n) as [Hn|Hn].
  - rewrite shr_m_div; rewrite ?shr_record_of_loc_m; try assumption.
    apply Z.div_pos; [assumption|]. apply Z.pow_pos_nonneg; lia.
  - destruct n; try lia. simpl. rewrite shr_record_of_loc_m. assumption.
Qed.

Lemma digits2_lower (m : positive) :
  2 ^ (Zpos (digits2_pos m) - 1) <= Zpos m.
Proof.
  induction m as [m IH|m IH|]; simpl digits2_pos.
  - rewrite Pos2Z.inj_succ. replace (Z.succ _ - 1) with (Z.succ (Zpos (digits2_pos m) - 1)) by lia.
    rewrite Z.pow_succ_r by lia. lia.
  - rewrite Pos2Z.inj_succ. replace (Z.succ _ - 1) with (Z.succ (Zpos (digits2_pos m) - 1)) by lia.
    rewrite Z.pow_succ_r by lia. lia.
  - simpl. lia.
Qed.

(** Above the smallest exponent the shift keeps a positive mantissa. *)
Lemma shr_fexp_pos (m e : Z) (l : location) :
  0 < m -> emin <= e ->
  0 < shr_m (fst (shr_fexp prec emax m e l))
  /\ emin <= snd (shr_fexp prec emax m e l).
Proof.
  intros Hm He. unfold shr_fexp.
  destruct m as [|p|p]; try lia. simpl Zdigits2.
  set (d := Zpos (digits2_pos p)).
  unfold fexp. set (n := Z.max _ _ - e).
  destruct n as [|k|k] eqn:Hn; simpl; rewrite ?shr_record_of_loc_m; try (split; lia).
  rewrite iter_pos_iter, shr_iter_m, shr_record_of_loc_m, quot2_iter_nonneg by lia.
  split.
  - apply Z.div_str_pos. split; [apply Z.pow_pos_nonneg; lia|].
    pose proof (digits2_lower p) as Hd. fold d in Hd.
    assert (Zpos k = d - prec) by (unfold emin, prec, emax in *; lia).
    apply Z.le_trans with (2 := Hd). apply Z.pow_le_mono_r; unfold prec in *; lia.
  - lia.
Qed.

Lemma round_nearest_even_ge (m : Z) (l : location) : m <= round_nearest_even m l.
Proof. destruct l as [|[]]; simpl; try lia. destruct (Z.even m); lia. Qed.

(** What rounding returns carries the sign it was given. *)
Lemma binary_round_aux_signed (s : bool) (m e : Z) (l : location) :
  0 <= m -> signed s (binary_round_aux prec emax s m e l).
Proof.
  intros Hm. unfold binary_round_aux.
  pose proof (shr_fexp_nonneg m e l Hm) as H1.
  destruct (shr_fexp prec emax m e l) as [mrs' e']. simpl in H1.
  pose proof (round_nearest_even_ge (shr_m mrs') (loc_of_shr_record mrs')) as H2.
  pose proof (shr_fexp_nonneg (round_nearest_even (shr_m mrs') (loc_of_shr_record mrs')) e' loc_Exact) as H3.
  destruct (shr_fexp prec emax _ e' loc_Exact) as [mrs'' e'']. simpl in H3.
  specialize (H3 ltac:(lia)).
  unfold signed.
  destruct (shr_m mrs'') as [|q|q]; try lia; [reflexivity|].
  destruct (e'' <=? emax - prec); reflexivity.
Qed.

Lemma binary_round_aux_pos (m e : Z) (l : location) :
  0 < m -> emin <= e ->
  positive_number (binary_round_aux prec emax false m e l).
Proof.
  intros Hm He. unfold binary_round_aux.
  destruct (shr_fexp_pos m e l Hm He) as [H1 H1'].
  destruct (shr_fexp prec emax m e l) as [mrs' e']. simpl in H1, H1'.
  pose proof (round_nearest_even_ge (shr_m mrs') (loc_of_shr_record mrs')) as H2.
  destruct (shr_fexp_pos (round_nearest_even (shr_m mrs') (loc_of_shr_record mrs')) e' loc_Exact ltac:(lia) H1') as [H3 _].
  destruct (shr_fexp prec emax _ e' loc_Exact) as [mrs'' e'']. simpl in H3.
  unfold positive_number.
  destruct (shr_m mrs'') as [|q|q]; try lia.
  destruct (e'' <=? emax - prec); exact I.
Qed.

(** The float nearest to a positive integer is positive. *)
Lemma nearest_pos (n : positive) : positive_number (nearest (Zpos n)).
Proof.
  unfold nearest, binary_normalize, binary_round.
  destruct (shl_align n 0 _) as [mz ez] eqn:E.
  apply binary_round_aux_pos; [lia|].
  unfold shl_align in E. unfold fexp, emin, prec, emax in *.
  destruct (_ - 0) eqn:D in E; inversion E; subst; lia.
Qed.

End ShiftAndRound.

Lemma signed_nonneg (x : float) : signed false x -> nonneg x = true.
Proof. destruct x; simpl; intros H; try rewrite H; tauto. Qed.

Lemma signed_number (s : bool) (x : float) : signed s x -> is_nan x = false.
Proof. destruct x; simpl; tauto. Qed.

Lemma binary_normalize_number (m e : Z) (sz : bool) :
  is_nan (binary_normalize prec emax m e sz) = false.
Proof.
  destruct m as [|p|p]; simpl; [reflexivity| |];
    unfold binary_round; destruct (shl_align _ _ _) as [mz ez];
    eapply signed_number; apply binary_round_aux_signed; lia.
Qed.

Lemma binary_normalize_nonneg (m e : Z) :
  (0 <= m)%Z -> nonneg (binary_normalize prec emax m e false) = true.
Proof.
  destruct m as [|p|p]; simpl; intros H; [reflexivity| |lia].
  unfold binary_round; destruct (shl_align _ _ _) as [mz ez].
  apply signed_nonneg, binary_round_aux_signed. lia.
Qed.

Lemma add_nonneg (x y : float) :
  nonneg x = true -> nonneg y = true -> nonneg (x + y) = true.
Proof.
  destruct x as [sx|[]| |[] mx ex], y as [sy|[]| |[] my ey];
    try discriminate; try reflexivity; intros _ _.
  - destruct sx, sy; reflexivity.
  - unfold add, SFadd. apply binary_normalize_nonneg. simpl cond_Zopp. lia.
Qed.

Lemma sum_nonneg (xs : list float) :
  Forall (fun x => nonneg x = true) xs -> nonneg (py_sum xs) = true.
Proof.
  unfold py_sum. assert (H0 : nonneg 0.0 = true) by reflexivity.
  revert H0. generalize 0.0 as acc. induction xs as [|x xs IH]; intros acc Hacc Hxs.
  - exact Hacc.
  - inversion Hxs; subst. simpl. apply IH; [apply add_nonneg|]; assumption.
Qed.

Lemma div_core_nonneg (m1 m2 : positive) (e1 e2 : Z) :
  (0 <= fst (fst (SFdiv_core_binary prec emax (Zpos m1) e1 (Zpos m2) e2)))%Z.
Proof.
  unfold SFdiv_core_binary.
  set (s := (e1 - e2 - _)%Z).
  set (m' := match s with Zpos _ => Z.shiftl (Zpos m1) s | Z0 => Zpos m1 | Zneg _ => 0%Z end).
  assert (0 <= m')%Z.
  { subst m'. destruct s; try lia. apply Z.shiftl_nonneg. lia. }
  pose proof (Z_div_mod m' (Zpos m2) ltac:(lia)) as D.
  destruct (Z.div_eucl m' (Zpos m2)) as [q r]. simpl. nia.
Qed.

Lemma div_nonneg (x : float) (m : positive) (e : Z) :
  nonneg x = true -> nonneg (x / S754_finite false m e) = true.
Proof.
  destruct x as [sx|[]| |[] mx ex]; try discriminate; intros _.
  - destruct sx; reflexivity.
  - reflexivity.
  - unfold div, SFdiv.
    pose proof (div_core_nonneg mx m ex e) as H.
    destruct (SFdiv_core_binary _ _ _ _ _ _) as [[mz ez] lz]. simpl in H.
    apply signed_nonneg. apply binary_round_aux_signed. assumption.
Qed.

Lemma sub_finite_number (s : bool) (m : positive) (e : Z) (y : float) :
  is_nan y = false -> is_nan (S754_finite s m e - y) = false.
Proof.
  destruct y as [sy|sy| |sy my ey]; try discriminate; intros _; try reflexivity.
  unfold sub, SFsub. apply binary_normalize_number.
Qed.

Lemma nonneg_number (x : float) : nonneg x = true -> is_nan x = false.
Proof. destruct x; simpl; congruence. Qed.

Lemma between_nonneg (hi x : float) : between 0.0 hi x = true -> nonneg x = true.
Proof.
  unfold between. intros H. apply andb_prop in H. destruct H as [H _].
  destruct x as [|[]| |[] ? ?]; try reflexivity; discriminate.
Qed.

(** Clamping a number from below first changes nothing. *)
Lemma clamp_collapse (d : float) :
  is_nan d = false ->
  py_max 0.0 (py_min 1.0 (py_max 0.0 d)) = py_max 0.0 (py_min 1.0 d).
Proof.
  intros Hd. unfold py_max at 2.
  destruct (0.0 <? d) eqn:H0; [reflexivity|].
  destruct d as [sd|[]| |[] md ed]; try discriminate; reflexivity.
Qed.

(** [float(n)] of a positive [int] is a positive finite float. *)
Lemma of_int_pos (n : positive) (x : float) :
  of_int (Zpos n) = Some x -> exists m e, x = S754_finite false m e.
Proof.
  unfold of_int. pose proof (nearest_pos n) as H.
  destruct (nearest (Zpos n)) as [|[]| |[] m e]; simpl in H; try tauto; try discriminate.
  intros E. inversion E. eauto.
Qed.


(** ** Stripping white space and fences *)

Lemma lstrip_blank (ws s : str) : blank ws = true -> lstrip (ws ++ s) = lstrip s.
Proof.
  induction ws as [|c ws IH]; simpl; intros H; [reflexivity|].
  apply andb_prop in H. destruct H as [Hc Hws]. rewrite Hc. auto.
Qed.

Lemma lstrip_head (c : char) (s : str) : isspace c = false -> lstrip (c :: s) = c :: s.
Proof. simpl. intros ->. reflexivity. Qed.

Lemma blank_rev (ws : str) : blank (rev ws) = blank ws.
Proof.
  unfold blank. induction ws as [|c ws IH]; simpl; [reflexivity|].
  rewrite forallb_app, IH. simpl. rewrite andb_true_r. apply andb_comm.
Qed.

Lemma rstrip_blank (ws s : str) : blank ws = true -> rstrip (s ++ ws) = rstrip s.
Proof.
  intros H. unfold rstrip. rewrite rev_app_distr, lstrip_blank; [reflexivity|].
  rewrite blank_rev. assumption.
Qed.

Lemma rstrip_last (c : char) (s : str) :
  isspace c = false -> rstrip (s ++ [c]) = s ++ [c].
Proof.
  intros H. unfold rstrip. rewrite rev_app_distr. simpl rev at 2. simpl app.
  rewrite lstrip_head by assumption. simpl. rewrite rev_involutive. reflexivity.
Qed.

Lemma startswith_app (p s : str) : startswith p (p ++ s) = true.
Proof. induction p as [|c p IH]; simpl; [reflexivity|]. rewrite N.eqb_refl. exact IH. Qed.

Lemma startswith_head (c d : char) (p s : str) :
  c <> d -> startswith (c :: p) (d :: s) = false.
Proof. intros H. simpl. apply N.eqb_neq in H. rewrite H. reflexivity. Qed.

Lemma endswith_app (p s : str) : endswith p (s ++ p) = true.
Proof. unfold endswith. rewrite rev_app_distr. apply startswith_app. Qed.

Lemma endswith_last (c d : char) (p s : str) :
  c <> d -> endswith (p ++ [c]) (s ++ [d]) = false.
Proof.
  intros H. unfold endswith. rewrite !rev_app_distr. simpl. 
  apply N.eqb_neq in H. rewrite H. reflexivity.
Qed.

Lemma slice_from_app (p s : str) : slice_from (length p) (p ++ s) = s.
Proof. unfold slice_from. induction p; simpl; auto. Qed.

Lemma slice_to_minus_app (p s : str) : slice_to_minus (length p) (s ++ p) = s.
Proof.
  unfold slice_to_minus. rewrite length_app, Nat.add_sub.
  rewrite firstn_app, Nat.sub_diag, firstn_all. simpl. apply app_nil_r.
Qed.

Lemma drop_fence (s : str) : slice_from 3 (lit "```" ++ s) = s.
Proof. exact (slice_from_app (lit "```") s). Qed.

Lemma drop_fence_json (s : str) : slice_from 7 (lit "```json" ++ s) = s.
Proof. exact (slice_from_app (lit "```json") s). Qed.

Lemma drop_closing_fence (s : str) : slice_to_minus 3 (s ++ lit "```") = s.
Proof. exact (slice_to_minus_app (lit "```") s). Qed.

Lemma opens_json_spec (c : char) :
  opens_json c = true -> isspace c = false /\ c <> 96%N /\ c <> 106%N.
Proof.
  unfold opens_json. intros H. apply existsb_exists in H.
  destruct H as (d & Hd & E). apply N.eqb_eq in E. subst d.
  vm_compute in Hd.
  repeat (destruct Hd as [<-|Hd]; [repeat split; (reflexivity || discriminate)|]).
  destruct Hd.
Qed.

Lemma closes_json_spec (c : char) :
  closes_json c = true -> isspace c = false /\ c <> 96%N.
Proof.
  unfold closes_json. intros H. apply existsb_exists in H.
  destruct H as (d & Hd & E). apply N.eqb_eq in E. subst d.
  vm_compute in Hd.
  repeat (destruct Hd as [<-|Hd]; [repeat split; (reflexivity || discriminate)|]).
  destruct Hd.
Qed.

(** A JSON text read by its two ends. *)
Lemma json_text_ends (s : str) :
  json_text s = true ->
  exists c s' d s'', s = c :: s' /\ s = s'' ++ [d]
                     /\ opens_json c = true /\ closes_json d = true.
Proof.
  destruct s as [|c s']; simpl; [discriminate|].
  intros H. apply andb_prop in H. destruct H as [Ho Hc].
  destruct (exists_last (l := c :: s') ltac:(discriminate)) as (s'' & d & E).
  exists c, s', d, s''. repeat split; try assumption.
  change (closes_json (last (c :: s') c) = true) in Hc.
  rewrite E, last_last in Hc. assumption.
Qed.

Lemma strip_padded (w core w' : str) :
  json_text core = true -> blank w = true -> blank w' = true ->
  strip (w ++ core ++ w') = core.
Proof.
  intros Hj Hw Hw'. destruct (json_text_ends _ Hj) as (c & s' & d & s'' & E1 & E2 & Ho & Hc).
  apply opens_json_spec in Ho. apply closes_json_spec in Hc.
  unfold strip. rewrite lstrip_blank by assumption.
  rewrite E1. simpl app. rewrite lstrip_head by tauto.
  change (c :: s' ++ w') with ((c :: s') ++ w'). rewrite <- E1.
  rewrite rstrip_blank by assumption. rewrite E2. apply rstrip_last. tauto.
Qed.

(** What follows an opening fence does not begin with a backtick or a [j]. *)
Lemma padded_head (w core rest : str) :
  json_text core = true -> blank w = true ->
  exists c s, w ++ core ++ rest = c :: s /\ c <> 96%N /\ c <> 106%N.
Proof.
  intros Hj Hw. destruct (json_text_ends _ Hj) as (c & s' & _ & _ & E1 & _ & Ho & _).
  apply opens_json_spec in Ho.
  destruct w as [|b w].
  - exists c, (s' ++ rest). rewrite E1. simpl. tauto.
  - exists b, (w ++ core ++ rest). simpl in Hw. apply andb_prop in Hw.
    destruct Hw as [Hb _]. simpl. repeat split; intros ->; discriminate.
Qed.

Lemma strip_fenced (a b tag payload : str) :
  blank a = true -> blank b = true ->
  strip (a ++ fenced tag payload ++ b) = fenced tag payload.
Proof.
  intros Ha Hb. unfold strip. rewrite lstrip_blank by assumption.
  unfold fenced at 1. change (lit "```") with [96; 96; 96]%N at 1.
  simpl app at 1. rewrite lstrip_head by reflexivity.
  change (96 :: 96 :: 96 :: (tag ++ payload ++ lit "```") ++ b)%N
    with (fenced tag payload ++ b).
  rewrite rstrip_blank by assumption.
  assert (E : fenced tag payload
              = (lit "```" ++ tag ++ payload ++ [96; 96]%N) ++ [96%N])
    by (unfold fenced; rewrite <- !app_assoc; reflexivity).
  rewrite E. apply rstrip_last. reflexivity.
Qed.

Theorem strip_fences_presentations (core w w' a b : str) :
  json_text core = true ->
  blank w = true -> blank w' = true -> blank a = true -> blank b = true ->
  strip_fences (w ++ core ++ w') = core
  /\ strip_fences (a ++ fenced (lit "json") (w ++ core ++ w') ++ b) = core
  /\ strip_fences (a ++ fenced [] (w ++ core ++ w') ++ b) = core.
Proof.
  intros Hj Hw Hw' Ha Hb.
  assert (S0 : strip core = core).
  { rewrite <- (app_nil_r core) at 1. apply (strip_padded [] core []); auto. }
  assert (S1 : startswith (lit "```json") core = false
               /\ startswith (lit "```") core = false
               /\ endswith (lit "```") core = false).
  { destruct (json_text_ends _ Hj) as (c & s' & d & s'' & E1 & E2 & Ho & Hc).
    apply opens_json_spec in Ho. apply closes_json_spec in Hc.
    repeat split.
    - rewrite E1; apply startswith_head; intros E; symmetry in E; tauto.
    - rewrite E1; apply startswith_head; intros E; symmetry in E; tauto.
    - rewrite E2; apply (endswith_last 96%N d [96; 96]%N s'');
        intros E; symmetry in E; tauto. }
  destruct S1 as (S1 & S2 & S3).
  assert (Hinner : forall rest, startswith (lit "```") (w ++ core ++ rest) = false
                                /\ startswith (lit "json") (w ++ core ++ rest) = false).
  { intros rest. destruct (padded_head w core rest Hj Hw) as (c & s & E & N1 & N2).
    rewrite E. split; apply startswith_head; intros F; symmetry in F; tauto. }
  split; [|split].
  - unfold strip_fences. rewrite strip_padded by assumption.
    rewrite S1, S2, S3. exact S0.
  - unfold strip_fences. rewrite strip_fenced by assumption.
    unfold fenced.
    change (lit "```" ++ lit "json" ++ (w ++ core ++ w') ++ lit "```")
      with (lit "```json" ++ ((w ++ core ++ w') ++ lit "```")).
    rewrite startswith_app, drop_fence_json.
    rewrite <- !app_assoc. destruct (Hinner (w' ++ lit "```")) as [-> _].
    replace (w ++ core ++ w' ++ lit "```") with ((w ++ core ++ w') ++ lit "```")
      by (rewrite <- !app_assoc; reflexivity).
    rewrite endswith_app, drop_closing_fence. apply strip_padded; assumption.
  - unfold strip_fences. rewrite strip_fenced by assumption.
    unfold fenced. rewrite app_nil_l.
    assert (S4 : startswith (lit "```json") (lit "```" ++ (w ++ core ++ w') ++ lit "```") = false).
    { rewrite <- !app_assoc. destruct (Hinner (w' ++ lit "```")) as [_ H].
      change (lit "```json") with (lit "```" ++ lit "json").
      change (lit "```") with [96; 96; 96]%N. simpl. exact H. }
    rewrite S4, startswith_app, drop_fence.
    rewrite endswith_app, drop_closing_fence. apply strip_padded; assumption.
Qed.

(** ** The agents always answer, and within bounds *)

(** Splits a hypothesis [x <- r ;; k = Ok v] along its successful steps. *)
Ltac bind_inv H :=
  repeat match type of H with
         | bind ?r _ = _ =>
           let E := fresh "E" in
           destruct r eqn:E; cbn [bind] in H; [|discriminate H]
         end.

Lemma try_any {A} (body : outcome A) (h : exn -> A) :
  exists r, try_except body any_exception (fun e => Ok (h e)) = Ok r
            /\ (body = Ok r \/ exists e, body = Raise e /\ r = h e).
Proof.
  destruct body as [a|e]; simpl.
  - exists a. auto.
  - exists (h e). split; [reflexivity|]. right. exists e. auto.
Qed.

Lemma try_parse {A} (body : outcome A) (h : exn -> A) (r : A) :
  try_except body parse_errors (fun e => Ok (h e)) = Ok r ->
  body = Ok r \/ exists e, body = Raise e /\ parse_errors (exn_cls e) = true /\ r = h e.
Proof.
  destruct body as [a|e]; simpl; [intros [= ->]; auto|].
  destruct (parse_errors (exn_cls e)) eqn:E; [intros [= <-]; eauto|discriminate].
Qed.

(** The score of a normalized response is clamped. *)
Ltac clamped_score H := bind_inv H; injection H as <-; apply clamp_between.

Lemma depth_normalize_score env v r :
  ReasoningDepthAgent.normalize env v = Ok r ->
  between 0.0 1.0 (ReasoningDepthAgent.score r) = true.
Proof. unfold ReasoningDepthAgent.normalize. intros H. clamped_score H. Qed.

Lemma structure_normalize_score env v r :
  ArgumentStructureAgent.normalize env v = Ok r ->
  between 0.0 1.0 (ArgumentStructureAgent.score r) = true.
Proof. unfold ArgumentStructureAgent.normalize. intros H. clamped_score H. Qed.

Lemma consistency_normalize_score env v r :
  ConsistencyAgent.normalize env v = Ok r ->
  between 0.0 1.0 (ConsistencyAgent.score r) = true.
Proof. unfold ConsistencyAgent.normalize. intros H. clamped_score H. Qed.

Lemma fallacy_normalize_score env v r :
  LogicalFallacyAgent.normalize env v = Ok r ->
  between 0.0 1.0 (LogicalFallacyAgent.score r) = true.
Proof. unfold LogicalFallacyAgent.normalize. intros H. clamped_score H. Qed.

Lemma depth_parse_response_score env text r :
  ReasoningDepthAgent._parse_response env text = Ok r ->
  between 0.0 1.0 (ReasoningDepthAgent.score r) = true.
Proof.
  intros H. apply try_parse in H. destruct H as [H|(e & _ & _ & ->)]; [|reflexivity].
  unfold ReasoningDepthAgent.parse in H. bind_inv H.
  eapply depth_normalize_score; eassumption.
Qed.

Lemma structure_parse_response_score env text r :
  ArgumentStructureAgent._parse_response env text = Ok r ->
  between 0.0 1.0 (ArgumentStructureAgent.score r) = true.
Proof.
  intros H. apply try_parse in H. destruct H as [H|(e & _ & _ & ->)]; [|reflexivity].
  unfold ArgumentStructureAgent.parse in H. bind_inv H.
  eapply structure_normalize_score; eassumption.
Qed.

Lemma consistency_parse_response_score env text r :
  ConsistencyAgent._parse_response env text = Ok r ->
  between 0.0 1.0 (ConsistencyAgent.score r) = true.
Proof.
  intros H. apply try_parse in H. destruct H as [H|(e & _ & _ & ->)]; [|reflexivity].
  unfold ConsistencyAgent.parse in H. bind_inv H.
  eapply consistency_normalize_score; eassumption.
Qed.

Lemma fallacy_parse_response_score env text r :
  LogicalFallacyAgent._parse_response env text = Ok r ->
  between 0.0 1.0 (LogicalFallacyAgent.score r) = true.
Proof.
  intros H. apply try_parse in H. destruct H as [H|(e & _ & _ & ->)]; [|reflexivity].
  unfold LogicalFallacyAgent.parse in H. bind_inv H.
  eapply fallacy_normalize_score; eassumption.
Qed.

Lemma depth_analyze_score env article_text :
  exists r, ReasoningDepthAgent.analyze env article_text = Ok r
            /\ between 0.0 1.0 (ReasoningDepthAgent.score r) = true.
Proof.
  unfold ReasoningDepthAgent.analyze.
  destruct (try_any (response <- llm_invoke env ReasoningDepth
                                   (ReasoningDepthAgent._create_analysis_prompt article_text) ;;
                     ReasoningDepthAgent._parse_response env response)
                    (ReasoningDepthAgent.fallback analysis_failed))
    as (r & Hr & [H|(e & _ & Hf)]); rewrite Hr; exists r; (split; [reflexivity|]).
  - bind_inv H. eapply depth_parse_response_score; eassumption.
  - subst r. reflexivity.
Qed.

Lemma structure_analyze_score env article_text :
  exists r, ArgumentStructureAgent.analyze env article_text = Ok r
            /\ between 0.0 1.0 (ArgumentStructureAgent.score r) = true.
Proof.
  unfold ArgumentStructureAgent.analyze.
  destruct (try_any (response <- llm_invoke env ArgumentStructure
                                   (ArgumentStructureAgent._create_analysis_prompt article_text) ;;
                     ArgumentStructureAgent._parse_response env response)
                    (ArgumentStructureAgent.fallback analysis_failed))
    as (r & Hr & [H|(e & _ & Hf)]); rewrite Hr; exists r; (split; [reflexivity|]).
  - bind_inv H. eapply structure_parse_response_score; eassumption.
  - subst r. reflexivity.
Qed.

Lemma consistency_analyze_score env article_text :
  exists r, ConsistencyAgent.analyze env article_text = Ok r
            /\ between 0.0 1.0 (ConsistencyAgent.score r) = true.
Proof.
  unfold ConsistencyAgent.analyze.
  destruct (try_any (response <- llm_invoke env Consistency
                                   (ConsistencyAgent._create_analysis_prompt article_text) ;;
                     ConsistencyAgent._parse_response env response)
                    (ConsistencyAgent.fallback analysis_failed))
    as (r & Hr & [H|(e & _ & Hf)]); rewrite Hr; exists r; (split; [reflexivity|]).
  - bind_inv H. eapply consistency_parse_response_score; eassumption.
  - subst r. reflexivity.
Qed.

Lemma fallacy_analyze_score env article_text :
  exists r, LogicalFallacyAgent.analyze env article_text = Ok r
            /\ between 0.0 1.0 (LogicalFallacyAgent.score r) = true.
Proof.
  unfold LogicalFallacyAgent.analyze.
  destruct (try_any (response <- llm_invoke env LogicalFallacies
                                   (LogicalFallacyAgent._create_analysis_prompt article_text) ;;
                     LogicalFallacyAgent._parse_response env response)
                    (LogicalFallacyAgent.fallback analysis_failed))
    as (r & Hr & [H|(e & _ & Hf)]); rewrite Hr; exists r; (split; [reflexivity|]).
  - bind_inv H. eapply fallacy_parse_response_score; eassumption.
  - subst r. reflexivity.
Qed.

(** C2.  For every article text and every behaviour of the model (any
    response text, well formed or not, or a raised exception), [analyze] of
    each of the four agents returns a result, and the [score] of that result
    lies within [[0.0, 1.0]]. *)
Theorem analyze_score_within_unit_interval (env : environment) (article_text : str) :
  (exists r, ReasoningDepthAgent.analyze env article_text = Ok r
             /\ between 0.0 1.0 (ReasoningDepthAgent.score r) = true)
  /\ (exists r, ArgumentStructureAgent.analyze env article_text = Ok r
                /\ between 0.0 1.0 (ArgumentStructureAgent.score r) = true)
  /\ (exists r, ConsistencyAgent.analyze env article_text = Ok r
                /\ between 0.0 1.0 (ConsistencyAgent.score r) = true)
  /\ (exists r, LogicalFallacyAgent.analyze env article_text = Ok r
                /\ between 0.0 1.0 (LogicalFallacyAgent.score r) = true).
Proof.
  split; [apply depth_analyze_score|].
  split; [apply structure_analyze_score|].
  split; [apply consistency_analyze_score|apply fallacy_analyze_score].
Qed.

(** C3.  When the text a model returns is not valid JSON once white space
    and fences are stripped ([json.loads] raises [JSONDecodeError]), [analyze]
    returns the documented fallback of the dimension and does not raise:
    reasoning depth 0.5 with both flags false and one level; argument
    structure 0.5 with no clear structure, coherence 0.5 and no component;
    consistency 0.7 with no contradiction; fallacies 0.7 with no fallacy.  The
    explanation names the failure: it is ["Failed to parse analysis result: "]
    followed by the decoder's message. *)
Theorem analyze_invalid_json_fallback (env : environment) (article_text : str) (e : exn) :
  exn_cls e = JSONDecodeError ->
  (forall response,
      llm_invoke env ReasoningDepth
        (ReasoningDepthAgent._create_analysis_prompt article_text) = Ok response ->
      json_loads env (strip_fences response) = Raise e ->
      ReasoningDepthAgent.analyze env article_text
      = Ok {| ReasoningDepthAgent.score := 0.5;
              ReasoningDepthAgent.has_causal_analysis := false;
              ReasoningDepthAgent.has_comparative_analysis := false;
              ReasoningDepthAgent.analysis_levels := 1;
              ReasoningDepthAgent.depth_explanation :=
                lit "Failed to parse analysis result: " ++ exn_str e |})
  /\ (forall response,
      llm_invoke env ArgumentStructure
        (ArgumentStructureAgent._create_analysis_prompt article_text) = Ok response ->
      json_loads env (strip_fences response) = Raise e ->
      ArgumentStructureAgent.analyze env article_text
      = Ok {| ArgumentStructureAgent.score := 0.5;
              ArgumentStructureAgent.has_clear_structure := false;
              ArgumentStructureAgent.paragraph_coherence := 0.5;
              ArgumentStructureAgent.argument_components := [];
              ArgumentStructureAgent.structure_explanation :=
                lit "Failed to parse analysis result: " ++ exn_str e |})
  /\ (forall response,
      llm_invoke env Consistency
        (ConsistencyAgent._create_analysis_prompt article_text) = Ok response ->
      json_loads env (strip_fences response) = Raise e ->
      ConsistencyAgent.analyze env article_text
      = Ok {| ConsistencyAgent.score := 0.7;
              ConsistencyAgent.contradictions := [];
              ConsistencyAgent.consistency_explanation :=
                lit "Failed to parse analysis result: " ++ exn_str e |})
  /\ (forall response,
      llm_invoke env LogicalFallacies
        (LogicalFallacyAgent._create_analysis_prompt article_text) = Ok response ->
      json_loads env (strip_fences response) = Raise e ->
      LogicalFallacyAgent.analyze env article_text
      = Ok {| LogicalFallacyAgent.score := 0.7;
              LogicalFallacyAgent.fallacies := [];
              LogicalFallacyAgent.fallacy_explanation :=
                lit "Failed to parse analysis result: " ++ exn_str e |}).
Proof.
  intros He. repeat split; intros response Hllm Hloads.
  - unfold ReasoningDepthAgent.analyze. rewrite Hllm. cbn [bind].
    unfold ReasoningDepthAgent._parse_response, ReasoningDepthAgent.parse.
    rewrite Hloads. cbn [bind try_except]. rewrite He. reflexivity.
  - unfold ArgumentStructureAgent.analyze. rewrite Hllm. cbn [bind].
    unfold ArgumentStructureAgent._parse_response, ArgumentStructureAgent.parse.
    rewrite Hloads. cbn [bind try_except]. rewrite He. reflexivity.
  - unfold ConsistencyAgent.analyze. rewrite Hllm. cbn [bind].
    unfold ConsistencyAgent._parse_response, ConsistencyAgent.parse.
    rewrite Hloads. cbn [bind try_except]. rewrite He. reflexivity.
  - unfold LogicalFallacyAgent.analyze. rewrite Hllm. cbn [bind].
    unfold LogicalFallacyAgent._parse_response, LogicalFallacyAgent.parse.
    rewrite Hloads. cbn [bind try_except]. rewrite He. reflexivity.
Qed.

Lemma analyze_invalid_json_fallback_witness :
  let env := Sample.env (fun _ => Ok Sample.refusal) in
  exn_cls Sample.expecting_value = JSONDecodeError
  /\ json_loads env (strip_fences Sample.refusal) = Raise Sample.expecting_value
  /\ ReasoningDepthAgent.analyze env Sample.article
     = Ok (ReasoningDepthAgent.fallback parse_failed Sample.expecting_value)
  /\ ArgumentStructureAgent.analyze env Sample.article
     = Ok (ArgumentStructureAgent.fallback parse_failed Sample.expecting_value)
  /\ ConsistencyAgent.analyze env Sample.article
     = Ok (ConsistencyAgent.fallback parse_failed Sample.expecting_value)
  /\ LogicalFallacyAgent.analyze env Sample.article
     = Ok (LogicalFallacyAgent.fallback parse_failed Sample.expecting_value).
Proof.
  intros env.
  destruct (analyze_invalid_json_fallback env Sample.article Sample.expecting_value
              eq_refl) as (H1 & H2 & H3 & H4).
  assert (L : json_loads env (strip_fences Sample.refusal) = Raise Sample.expecting_value)
    by (vm_compute; reflexivity).
  split; [reflexivity|]. split; [exact L|].
  split; [exact (H1 Sample.refusal eq_refl L)|].
  split; [exact (H2 Sample.refusal eq_refl L)|].
  split; [exact (H3 Sample.refusal eq_refl L)|].
  exact (H4 Sample.refusal eq_refl L).
Defined.

(** ** What the constructors raise *)

Lemma unit_field_class env model field x e :
  unit_field env model field x = Raise e -> exn_cls e = ValidationError.
Proof.
  unfold unit_field. destruct (between 0.0 1.0 x); [discriminate|].
  unfold invalid, raise. intros [= <-]. reflexivity.
Qed.

Lemma text_field_class env model field v e :
  text_field env model field v = Raise e -> exn_cls e = ValidationError.
Proof.
  unfold text_field. destruct (str_field env v); [discriminate|].
  unfold invalid, raise. intros [= <-]. reflexivity.
Qed.

(** Splits a hypothesis [x <- r ;; k = Raise e] by the step that raised. *)
Ltac raise_inv H :=
  repeat match type of H with
         | bind ?r _ = Raise _ =>
           let E := fresh "E" in
           destruct r eqn:E; cbn [bind] in H;
           [|injection H as <-;
             first [eapply unit_field_class; eassumption
                   |eapply text_field_class; eassumption
                   |idtac]]
         end.

Lemma traverse_class {A B} (f : A -> outcome B) (l : list A) e :
  (forall a e, f a = Raise e -> exn_cls e = ValidationError) ->
  traverse f l = Raise e -> exn_cls e = ValidationError.
Proof.
  intros Hf. induction l as [|a l IH]; simpl; [discriminate|].
  intros H. destruct (f a) eqn:Ea; cbn [bind] in H.
  - destruct (traverse f l); cbn [bind] in H; [discriminate|].
    injection H as <-. auto.
  - injection H as <-. eauto.
Qed.

Lemma component_create_class env c e :
  ArgumentComponent.create env c = Raise e -> exn_cls e = ValidationError.
Proof.
  unfold ArgumentComponent.create. intros H. raise_inv H. discriminate.
Qed.

Lemma fallacy_create_class env f e :
  LogicalFallacy.create env f = Raise e -> exn_cls e = ValidationError.
Proof.
  unfold LogicalFallacy.create. intros H.
  destruct (LogicalFallacyType.of_json _).
  - cbn [bind] in H. raise_inv H. discriminate.
  - cbn [bind] in H. injection H as <-. reflexivity.
Qed.

(** Nothing but a rejected model value makes [evaluate] raise: the four
    agents always return, and only the constructors are left. *)
Lemma evaluate_raises_validation_errors env article_text article_title e :
  ReasoningLogicEvaluator.evaluate env article_text article_title = Raise e ->
  exn_cls e = ValidationError.
Proof.
  unfold ReasoningLogicEvaluator.evaluate. intros H.
  destruct (depth_analyze_score env article_text) as (r1 & E1 & _).
  destruct (structure_analyze_score env article_text) as (r2 & E2 & _).
  destruct (fallacy_analyze_score env article_text) as (r3 & E3 & _).
  destruct (consistency_analyze_score env article_text) as (r4 & E4 & _).
  rewrite E1 in H. cbn [bind] in H.
  destruct (ReasoningDepthResult.create env r1) eqn:C1; cbn [bind] in H;
    [|injection H as <-; unfold ReasoningDepthResult.create in C1; raise_inv C1;
      discriminate].
  rewrite E2 in H. cbn [bind] in H.
  destruct (traverse (ArgumentComponent.create env) _) eqn:T2; cbn [bind] in H;
    [|injection H as <-; eapply traverse_class; [|exact T2];
      apply component_create_class].
  destruct (ArgumentStructureResult.create env r2 _) eqn:C2; cbn [bind] in H;
    [|injection H as <-; unfold ArgumentStructureResult.create in C2; raise_inv C2;
      discriminate].
  rewrite E3 in H. cbn [bind] in H.
  destruct (traverse (LogicalFallacy.create env) _) eqn:T3; cbn [bind] in H;
    [|injection H as <-; eapply traverse_class; [|exact T3];
      apply fallacy_create_class].
  destruct (LogicalFallacyResult.create env r3 _) eqn:C3; cbn [bind] in H;
    [|injection H as <-; unfold LogicalFallacyResult.create in C3; raise_inv C3;
      discriminate].
  rewrite E4 in H. cbn [bind] in H.
  destruct (ConsistencyResult.create env r4) eqn:C4; cbn [bind] in H;
    [|injection H as <-; unfold ConsistencyResult.create in C4; raise_inv C4;
      discriminate].
  destruct (ReasoningLogicEvaluator._identify_strengths_weaknesses _ _ _ _).
  unfold ReasoningLogicEvaluation.create in H. raise_inv H. discriminate.
Qed.

(** ** What the evaluator returns *)

Lemma unit_field_ok env model field x y :
  unit_field env model field x = Ok y -> y = x /\ between 0.0 1.0 x = true.
Proof.
  unfold unit_field. destruct (between 0.0 1.0 x); [|discriminate].
  intros [= <-]. auto.
Qed.

(** A report that [evaluate] returns holds four validated component results
    and what the three helpers derive from them. *)
Lemma evaluate_assembles env article_text article_title ev :
  ReasoningLogicEvaluator.evaluate env article_text article_title = Ok ev ->
  let rd := ReasoningLogicEvaluation.reasoning_depth ev in
  let ast := ReasoningLogicEvaluation.argument_structure ev in
  let cs := ReasoningLogicEvaluation.consistency ev in
  let lf := ReasoningLogicEvaluation.logical_fallacies ev in
  ReasoningLogicEvaluation.article_title ev = article_title
  /\ ReasoningLogicEvaluation.overall_score ev
     = ReasoningLogicEvaluator._calculate_overall_score rd ast cs lf
  /\ (ReasoningLogicEvaluation.strengths ev, ReasoningLogicEvaluation.weaknesses ev)
     = ReasoningLogicEvaluator._identify_strengths_weaknesses rd ast cs lf
  /\ ReasoningLogicEvaluation.recommendations ev
     = ReasoningLogicEvaluator._generate_recommendations rd ast cs lf
  /\ between 0.0 1.0 (ReasoningDepthResult.score rd) = true
  /\ between 0.0 1.0 (ArgumentStructureResult.score ast) = true
  /\ between 0.0 1.0 (ConsistencyResult.score cs) = true
  /\ between 0.0 1.0 (LogicalFallacyResult.score lf) = true.
Proof.
  unfold ReasoningLogicEvaluator.evaluate. intros H. bind_inv H.
  destruct (ReasoningLogicEvaluator._identify_strengths_weaknesses _ _ _ _)
    as [ss ws] eqn:Ef.
  unfold ReasoningLogicEvaluation.create in H. bind_inv H. injection H as <-.
  cbn [ReasoningLogicEvaluation.reasoning_depth
       ReasoningLogicEvaluation.argument_structure
       ReasoningLogicEvaluation.consistency
       ReasoningLogicEvaluation.logical_fallacies
       ReasoningLogicEvaluation.article_title
       ReasoningLogicEvaluation.overall_score
       ReasoningLogicEvaluation.strengths ReasoningLogicEvaluation.weaknesses
       ReasoningLogicEvaluation.recommendations].
  repeat match goal with
         | F : unit_field _ _ _ _ = Ok _ |- _ =>
           apply unit_field_ok in F; destruct F as [-> ?]
         end.
  rewrite Ef.
  repeat match goal with
         | F : ReasoningDepthResult.create _ _ = Ok _ |- _ =>
           unfold ReasoningDepthResult.create in F; bind_inv F; injection F as <-
         | F : ArgumentStructureResult.create _ _ _ = Ok _ |- _ =>
           unfold ArgumentStructureResult.create in F; bind_inv F; injection F as <-
         | F : ConsistencyResult.create _ _ = Ok _ |- _ =>
           unfold ConsistencyResult.create in F; bind_inv F; injection F as <-
         | F : LogicalFallacyResult.create _ _ _ = Ok _ |- _ =>
           unfold LogicalFallacyResult.create in F; bind_inv F; injection F as <-
         | F : unit_field _ _ _ _ = Ok _ |- _ =>
           apply unit_field_ok in F; destruct F as [-> ?]
         end.
  cbn [ReasoningDepthResult.score ArgumentStructureResult.score
       ConsistencyResult.score LogicalFallacyResult.score].
  repeat split; assumption.
Qed.

(** When every model refuses to answer in JSON, the report is made of the
    four fallbacks. *)
Example evaluate_with_fallbacks :
  exists ev,
    ReasoningLogicEvaluator.evaluate (Sample.env (fun _ => Ok Sample.refusal))
      Sample.article (Some (lit "Rates")) = Ok ev
    /\ ReasoningLogicEvaluation.overall_score ev = 0.58
    /\ ReasoningLogicEvaluation.strengths ev = []
    /\ length (ReasoningLogicEvaluation.weaknesses ev) = 5%nat
    /\ length (ReasoningLogicEvaluation.recommendations ev) = 5%nat.
Proof. eexists. repeat split; vm_compute; reflexivity. Qed.

(** ** What the evaluator raises on *)

(** The fallacy agent keeps whatever type the model names. *)
Lemma unlisted_type_analysis env :
  LogicalFallacyAgent.normalize env (JDict Sample.unlisted_type_members)
  = Ok {| LogicalFallacyAgent.score := 0.5;
          LogicalFallacyAgent.fallacies :=
            [ {| LogicalFallacyAgent.type := JStr (lit "appeal_to_authority");
                 LogicalFallacyAgent.location := JStr (lit "paragraph 2");
                 LogicalFallacyAgent.description := JStr (lit "cites a celebrity");
                 LogicalFallacyAgent.severity := 0.5 |} ];
          LogicalFallacyAgent.fallacy_explanation := [] |}.
Proof. vm_compute. reflexivity. Qed.

(** C1 (the code departs from the claim).  The claim is that [evaluate]
    always returns a complete record and never raises.  It does raise: when
    the fallacy model answers with a fallacy whose [type] is not a member of
    [LogicalFallacyType], here
    [{"fallacies": [{"type": "appeal_to_authority", "location": "paragraph 2",
    "description": "cites a celebrity", "severity": 0.5}]}],
    the agent passes the type on unchecked, the constructor of
    [LogicalFallacy] rejects it, and the [ValidationError] leaves [evaluate],
    whatever the other three models do. *)
Theorem evaluate_raises_on_unlisted_fallacy_type
    (env : environment) (article_text : str) (article_title : option str)
    (response : str) :
  llm_invoke env LogicalFallacies
    (LogicalFallacyAgent._create_analysis_prompt article_text) = Ok response ->
  json_loads env (strip_fences response) = Ok (JDict Sample.unlisted_type_members) ->
  exists e, ReasoningLogicEvaluator.evaluate env article_text article_title = Raise e
            /\ exn_cls e = ValidationError.
Proof.
  intros Hllm Hloads.
  assert (Hf : exists r, LogicalFallacyAgent.analyze env article_text = Ok r
               /\ map LogicalFallacyAgent.type (LogicalFallacyAgent.fallacies r)
                  = [JStr (lit "appeal_to_authority")]).
  { unfold LogicalFallacyAgent.analyze. rewrite Hllm. cbn [bind].
    unfold LogicalFallacyAgent._parse_response, LogicalFallacyAgent.parse.
    rewrite Hloads. cbn [bind]. rewrite unlisted_type_analysis.
    eexists. split; reflexivity. }
  destruct Hf as (rf & Hf & Hty).
  unfold ReasoningLogicEvaluator.evaluate.
  destruct (depth_analyze_score env article_text) as (r1 & -> & _). cbn [bind].
  destruct (ReasoningDepthResult.create env r1) as [d1|e1] eqn:E1; cbn [bind];
    [|exists e1; split; [reflexivity|]; unfold ReasoningDepthResult.create in E1;
      raise_inv E1; discriminate].
  destruct (structure_analyze_score env article_text) as (r2 & -> & _). cbn [bind].
  destruct (traverse _ _) as [cs|e2] eqn:E2; cbn [bind];
    [|exists e2; split; [reflexivity|];
      eapply traverse_class; [|exact E2]; apply component_create_class].
  destruct (ArgumentStructureResult.create env r2 cs) as [d2|e3] eqn:E3; cbn [bind];
    [|exists e3; split; [reflexivity|]; unfold ArgumentStructureResult.create in E3;
      raise_inv E3; discriminate].
  rewrite Hf. cbn [bind].
  destruct (LogicalFallacyAgent.fallacies rf) as [|f [|f' fs]]; try discriminate.
  injection Hty as Hty. cbn [traverse].
  unfold LogicalFallacy.create at 1. rewrite Hty.
  replace (LogicalFallacyType.of_json (JStr (lit "appeal_to_authority")))
    with (@None LogicalFallacyType.t) by (vm_compute; reflexivity).
  cbn [bind]. unfold invalid, raise. cbn [bind].
  eexists. split; reflexivity.
Qed.

Lemma evaluate_raises_on_unlisted_fallacy_type_witness :
  exists e,
    ReasoningLogicEvaluator.evaluate
      (Sample.env (Sample.fallacy_answer Sample.unlisted_type)) Sample.article None
    = Raise e /\ exn_cls e = ValidationError.
Proof.
  apply (evaluate_raises_on_unlisted_fallacy_type
           (Sample.env (Sample.fallacy_answer Sample.unlisted_type))
           Sample.article None Sample.unlisted_type).
  - reflexivity.
  - vm_compute. reflexivity.
Defined.

(** ** The overall score *)

Lemma div_half_even_nearest (a b : Z) :
  (0 <= a -> 0 < b -> Z.abs (2 * a - 2 * div_half_even a b * b) <= b)%Z.
Proof.
  intros Ha Hb. unfold div_half_even.
  pose proof (Z_div_mod a b ltac:(lia)) as D.
  destruct (Z.div_eucl a b) as [q r]. destruct D as [D R].
  destruct (Z.compare_spec (2 * r) b) as [E|E|E]; [destruct (Z.even q)| |]; nia.
Qed.

(** [round(x, 3)] goes through the integer nearest to a thousand times [x]. *)
Lemma scaled_nearest_thousandth (m : positive) (e : Z) :
  nearest_thousandth m e (scaled m e 3).
Proof.
  unfold nearest_thousandth, scaled. destruct e as [|k|k].
  - change (Z.max 0 (- 0))%Z with 0%Z. change (Z.max 0 0)%Z with 0%Z.
    change (2 ^ 0)%Z with 1%Z. change (10 ^ 3)%Z with 1000%Z. lia.
  - rewrite Z.max_r, Z.max_l by lia. change (2 ^ 0)%Z with 1%Z.
    change (10 ^ 3)%Z with 1000%Z.
    replace (2 * (1000 * Z.pos m * 2 ^ Z.pos k) - 2 * (Z.pos m * 1000 * 2 ^ Z.pos k) * 1)%Z
      with 0%Z by ring.
    simpl. lia.
  - rewrite Z.max_l, Z.max_r by lia. change (- Z.neg k)%Z with (Z.pos k).
    change (2 ^ 0)%Z with 1%Z. change (10 ^ 3)%Z with 1000%Z.
    pose proof (div_half_even_nearest (Z.pos m * 1000) (2 ^ Z.pos k) ltac:(lia)
                  ltac:(apply Z.pow_pos_nonneg; lia)) as H.
    replace (2 * (1000 * Z.pos m * 1))%Z with (2 * (Z.pos m * 1000))%Z by ring.
    exact H.
Qed.

(** C4 (the claim as stated fails).  With the component scores 0.8, 0.6, 0.9
    and 0.7 the overall score is not 0.765. *)
Lemma overall_score_example_is_not_0_765 :
  ReasoningLogicEvaluator._calculate_overall_score
    (Sample.depth 0.8) (Sample.structure 0.6 0.5) (Sample.consistency 0.9)
    (Sample.fallacies 0.7) <> 0.765.
Proof. vm_compute. discriminate. Qed.

(** C4 (amended).  For every quadruple of component results the overall
    score is [reasoning_depth.score * 0.30 + argument_structure.score * 0.30
    + consistency.score * 0.25 + logical_fallacies.score * 0.15], summed in
    that order, rounded to 3 decimal places: when the sum is the finite
    float [m * 2^e] of sign [s], the result is the float nearest to [n / 1000]
    for an integer [n] within one half of [1000 * m * 2^e].  In particular
    the component scores 0.8, 0.6, 0.9 and 0.7 give 0.75.  The
    [overall_score] of every report that [evaluate] returns is this value for
    the four component results of the report. *)
Theorem overall_score_weighted_sum
    (rd : ReasoningDepthResult.t) (ast : ArgumentStructureResult.t)
    (cs : ConsistencyResult.t) (lf : LogicalFallacyResult.t) :
  let overall :=
    ReasoningDepthResult.score rd * 0.30 + ArgumentStructureResult.score ast * 0.30
    + ConsistencyResult.score cs * 0.25 + LogicalFallacyResult.score lf * 0.15 in
  ReasoningLogicEvaluator._calculate_overall_score rd ast cs lf = py_round overall 3
  /\ (forall s m e, overall = S754_finite s m e ->
        exists n, nearest_thousandth m e n
                  /\ py_round overall 3
                     = match n with
                       | Zpos _ => if s then SFopp (ratio n 1000) else ratio n 1000
                       | _ => S754_zero s
                       end)
  /\ (ReasoningDepthResult.score rd = 0.8 ->
      ArgumentStructureResult.score ast = 0.6 ->
      ConsistencyResult.score cs = 0.9 ->
      LogicalFallacyResult.score lf = 0.7 ->
      ReasoningLogicEvaluator._calculate_overall_score rd ast cs lf = 0.75)
  /\ (forall env article_text article_title ev,
         ReasoningLogicEvaluator.evaluate env article_text article_title = Ok ev ->
         ReasoningLogicEvaluation.overall_score ev
         = py_round
             (ReasoningDepthResult.score (ReasoningLogicEvaluation.reasoning_depth ev)
                * 0.30
              + ArgumentStructureResult.score
                  (ReasoningLogicEvaluation.argument_structure ev) * 0.30
              + ConsistencyResult.score (ReasoningLogicEvaluation.consistency ev)
                * 0.25
              + LogicalFallacyResult.score
                  (ReasoningLogicEvaluation.logical_fallacies ev) * 0.15) 3).
Proof.
  intros overall. split; [reflexivity|]. split; [|split].
  - intros s m e E. exists (scaled m e 3). split; [apply scaled_nearest_thousandth|].
    rewrite E. unfold py_round. destruct (scaled m e 3); reflexivity.
  - intros H1 H2 H3 H4. unfold ReasoningLogicEvaluator._calculate_overall_score.
    rewrite H1, H2, H3, H4. vm_compute. reflexivity.
  - intros env article_text article_title ev H.
    destruct (evaluate_assembles env article_text article_title ev H) as (_ & E & _).
    exact E.
Qed.

Lemma overall_score_weighted_sum_witness :
  ReasoningLogicEvaluator._calculate_overall_score
    (Sample.depth 0.8) (Sample.structure 0.6 0.5) (Sample.consistency 0.9)
    (Sample.fallacies 0.7) = 0.75.
Proof.
  apply (overall_score_weighted_sum
           (Sample.depth 0.8) (Sample.structure 0.6 0.5) (Sample.consistency 0.9)
           (Sample.fallacies 0.7)); reflexivity.
Defined.

(** ** Recommendations *)

Lemma fold_recommend {A} (g : A -> str) (l : list A) (rs : list str) :
  fold_left (fun rs a => ReasoningLogicEvaluator.recommend (g a) rs) l rs
  = rs ++ map g l.
Proof.
  revert rs. induction l as [|a l IH]; intros rs; simpl.
  - symmetry. apply app_nil_r.
  - rewrite IH. unfold ReasoningLogicEvaluator.recommend. rewrite <- app_assoc. reflexivity.
Qed.

(** C8.  For every [LogicalFallacyResult], fallacy detection contributes to
    the recommendations one entry per fallacy among the first two, in order,
    each made of the fixed prefix and that fallacy's description; they come
    last, after the entries of the other three dimensions, and are at most
    two however many fallacies there are. *)
Theorem fallacy_recommendations_at_most_two
    (rd : ReasoningDepthResult.t) (ast : ArgumentStructureResult.t)
    (cs : ConsistencyResult.t) (lf : LogicalFallacyResult.t) :
  let added :=
    map (fun fallacy => lit "修正逻辑谬误：" ++ LogicalFallacy.description fallacy)
        (firstn 2 (LogicalFallacyResult.fallacies lf)) in
  (forall rs, ReasoningLogicEvaluator.fallacy_recommendations lf rs = rs ++ added)
  /\ ReasoningLogicEvaluator._generate_recommendations rd ast cs lf
     = ReasoningLogicEvaluator.consistency_recommendations cs
         (ReasoningLogicEvaluator.structure_recommendations ast
            (ReasoningLogicEvaluator.depth_recommendations rd []))
       ++ added
  /\ (length added <= 2)%nat
  /\ length added = Nat.min 2 (length (LogicalFallacyResult.fallacies lf)).
Proof.
  intros added.
  assert (H : forall rs, ReasoningLogicEvaluator.fallacy_recommendations lf rs = rs ++ added).
  { intros rs. unfold ReasoningLogicEvaluator.fallacy_recommendations, added.
    destruct (LogicalFallacyResult.fallacies lf) as [|f fs].
    - simpl. symmetry. apply app_nil_r.
    - apply fold_recommend. }
  assert (L : length added = Nat.min 2 (length (LogicalFallacyResult.fallacies lf))).
  { unfold added. rewrite length_map, length_firstn. reflexivity. }
  split; [exact H|]. split; [|split].
  - unfold ReasoningLogicEvaluator._generate_recommendations. apply H.
  - rewrite L. apply Nat.le_min_l.
  - exact L.
Qed.

(** ** Strengths and weaknesses *)

Import ReasoningLogicEvaluator.

(** Every literal becomes the list of its code points. *)
Ltac literals :=
  repeat match goal with
         | |- context [lit ?s] =>
           let v := eval vm_compute in (lit s) in progress change (lit s) with v
         end.

Lemma extend_no_findings (f : findings) : extend f no_findings = f.
Proof. destruct f. unfold extend. simpl. rewrite !app_nil_r. reflexivity. Qed.

Lemma strength_extend (s : str) (f g : findings) :
  strength s (extend f g) = extend f (strength s g).
Proof. unfold strength, extend. simpl. rewrite app_assoc. reflexivity. Qed.

Lemma weakness_extend (s : str) (f g : findings) :
  weakness s (extend f g) = extend f (weakness s g).
Proof. unfold weakness, extend. simpl. rewrite app_assoc. reflexivity. Qed.

Lemma when_extend (b : bool) (step : findings -> findings) (f g : findings) :
  (forall g', step (extend f g') = extend f (step g')) ->
  when b step (extend f g) = extend f (when b step g).
Proof. intros H. destruct b; simpl; auto. Qed.

Ltac extends :=
  repeat first [ rewrite strength_extend | rewrite weakness_extend
               | rewrite when_extend
                   by (intros; first [apply strength_extend | apply weakness_extend]) ].

Lemma depth_findings_extend r f :
  depth_findings r f = extend f (depth_findings r no_findings).
Proof.
  rewrite <- (extend_no_findings f) at 1. unfold depth_findings.
  destruct (0.7 <=? _); extends; reflexivity.
Qed.

Lemma structure_findings_extend a f :
  structure_findings a f = extend f (structure_findings a no_findings).
Proof.
  rewrite <- (extend_no_findings f) at 1. unfold structure_findings.
  destruct (0.7 <=? _); extends; reflexivity.
Qed.

Lemma consistency_findings_extend c f :
  consistency_findings c f = extend f (consistency_findings c no_findings).
Proof.
  rewrite <- (extend_no_findings f) at 1. unfold consistency_findings.
  destruct (0.8 <=? _); [|destruct (ConsistencyResult.contradictions c)];
    extends; reflexivity.
Qed.

Lemma fallacy_findings_extend l f :
  fallacy_findings l f = extend f (fallacy_findings l no_findings).
Proof.
  rewrite <- (extend_no_findings f) at 1. unfold fallacy_findings.
  destruct (0.8 <=? _); [|destruct (LogicalFallacyResult.fallacies l)];
    extends; reflexivity.
Qed.

(** The two lists are the blocks' findings one after another. *)
Lemma identify_by_blocks rd ast cs lf :
  _identify_strengths_weaknesses rd ast cs lf
  = (strengths (depth_findings rd no_findings)
     ++ strengths (structure_findings ast no_findings)
     ++ strengths (consistency_findings cs no_findings)
     ++ strengths (fallacy_findings lf no_findings),
     weaknesses (depth_findings rd no_findings)
     ++ weaknesses (structure_findings ast no_findings)
     ++ weaknesses (consistency_findings cs no_findings)
     ++ weaknesses (fallacy_findings lf no_findings)).
Proof.
  unfold _identify_strengths_weaknesses.
  rewrite (fallacy_findings_extend lf), (consistency_findings_extend cs),
    (structure_findings_extend ast).
  change {| strengths := []; weaknesses := [] |} with no_findings.
  unfold extend. simpl. rewrite <- !app_assoc. reflexivity.
Qed.

Ltac blocks :=
  unfold depth_findings, structure_findings, consistency_findings,
    fallacy_findings, when, strength, weakness, no_findings.

(** [msg] is none of the listed messages, which differ from it early on. *)
Ltac not_listed :=
  let H := fresh "H" in
  intros H; cbn [In] in H;
  repeat match type of H with
         | _ \/ _ => destruct H as [H|H]; [discriminate H|]
         end;
  first [contradiction | discriminate H].

(** A block adds to one list only, according to its first test. *)
Lemma depth_one_sided r :
  let d := depth_findings r no_findings in
  if 0.7 <=? ReasoningDepthResult.score r
  then weaknesses d = [] else strengths d = [].
Proof.
  blocks. destruct (0.7 <=? ReasoningDepthResult.score r),
    (ReasoningDepthResult.has_causal_analysis r),
    (ReasoningDepthResult.has_comparative_analysis r),
    (3 <=? ReasoningDepthResult.analysis_levels r)%Z,
    (ReasoningDepthResult.analysis_levels r <? 2)%Z;
    reflexivity.
Qed.

Lemma structure_one_sided a :
  let d := structure_findings a no_findings in
  if 0.7 <=? ArgumentStructureResult.score a
  then weaknesses d = [] else strengths d = [].
Proof.
  blocks. destruct (0.7 <=? ArgumentStructureResult.score a),
    (ArgumentStructureResult.has_clear_structure a),
    (0.7 <=? ArgumentStructureResult.paragraph_coherence a),
    (ArgumentStructureResult.paragraph_coherence a <? 0.6);
    reflexivity.
Qed.

Lemma consistency_one_sided c :
  let d := consistency_findings c no_findings in
  if 0.8 <=? ConsistencyResult.score c
  then weaknesses d = [] else strengths d = [].
Proof.
  blocks. destruct (0.8 <=? ConsistencyResult.score c), (ConsistencyResult.contradictions c); reflexivity.
Qed.

Lemma fallacy_one_sided l :
  let d := fallacy_findings l no_findings in
  if 0.8 <=? LogicalFallacyResult.score l
  then weaknesses d = [] else strengths d = [].
Proof.
  blocks. destruct (0.8 <=? LogicalFallacyResult.score l), (LogicalFallacyResult.fallacies l); reflexivity.
Qed.

(** Only the structure block words a finding about coherence. *)
Lemma depth_no_coherence r :
  ~ In coherence_weakness (weaknesses (depth_findings r no_findings))
  /\ ~ In coherence_strength (strengths (depth_findings r no_findings)).
Proof.
  unfold coherence_weakness, coherence_strength. blocks.
  destruct (0.7 <=? ReasoningDepthResult.score r),
    (ReasoningDepthResult.has_causal_analysis r),
    (ReasoningDepthResult.has_comparative_analysis r),
    (3 <=? ReasoningDepthResult.analysis_levels r)%Z,
    (ReasoningDepthResult.analysis_levels r <? 2)%Z;
    literals; cbn [In app strengths weaknesses negb]; split; not_listed.
Qed.

Lemma consistency_no_coherence c :
  ~ In coherence_weakness (weaknesses (consistency_findings c no_findings))
  /\ ~ In coherence_strength (strengths (consistency_findings c no_findings)).
Proof.
  unfold coherence_weakness, coherence_strength. blocks.
  destruct (0.8 <=? ConsistencyResult.score c), (ConsistencyResult.contradictions c);
    literals; cbn [In app strengths weaknesses negb]; split; not_listed.
Qed.

Lemma fallacy_no_coherence l :
  ~ In coherence_weakness (weaknesses (fallacy_findings l no_findings))
  /\ ~ In coherence_strength (strengths (fallacy_findings l no_findings)).
Proof.
  unfold coherence_weakness, coherence_strength. blocks.
  destruct (0.8 <=? LogicalFallacyResult.score l), (LogicalFallacyResult.fallacies l);
    literals; cbn [In app strengths weaknesses negb]; split; not_listed.
Qed.

Lemma structure_coherence a :
  (In coherence_weakness (weaknesses (structure_findings a no_findings))
   <-> (0.7 <=? ArgumentStructureResult.score a) = false
       /\ (ArgumentStructureResult.paragraph_coherence a <? 0.6) = true)
  /\ (In coherence_strength (strengths (structure_findings a no_findings))
      <-> (0.7 <=? ArgumentStructureResult.score a) = true
          /\ (0.7 <=? ArgumentStructureResult.paragraph_coherence a) = true).
Proof.
  unfold coherence_weakness, coherence_strength. blocks.
  destruct (0.7 <=? ArgumentStructureResult.score a),
    (ArgumentStructureResult.has_clear_structure a),
    (0.7 <=? ArgumentStructureResult.paragraph_coherence a),
    (ArgumentStructureResult.paragraph_coherence a <? 0.6);
    literals; cbn [In app strengths weaknesses negb];
    (split;
     (split;
      [ first [ intros _; split; reflexivity | not_listed ]
      | intros [? ?]; first [ discriminate | cbn [In]; auto ] ])).
Qed.


Lemma only_second (A B C D X : Prop) :
  ~ A -> ~ C -> ~ D -> (B <-> X) -> (A \/ B \/ C \/ D <-> X).
Proof. tauto. Qed.

(** C7.  In the lists that [_identify_strengths_weaknesses] returns, for
    every [ArgumentStructureResult] whose score is below 0.7, the weakness
    about paragraph coherence is present if and only if [paragraph_coherence]
    is below 0.6, whatever the other three results are.  With score 0.65,
    coherence 0.65 gives no such weakness and coherence 0.55 gives one.  The
    strength about coherence is present only when both the score and
    [paragraph_coherence] are at least 0.7. *)
Theorem coherence_weakness_threshold
    (rd : ReasoningDepthResult.t) (ast : ArgumentStructureResult.t)
    (cs : ConsistencyResult.t) (lf : LogicalFallacyResult.t) :
  let found := _identify_strengths_weaknesses rd ast cs lf in
  ((ArgumentStructureResult.score ast <? 0.7) = true ->
   (In coherence_weakness (snd found)
    <-> (ArgumentStructureResult.paragraph_coherence ast <? 0.6) = true))
  /\ (ArgumentStructureResult.score ast = 0.65 ->
      ArgumentStructureResult.paragraph_coherence ast = 0.65 ->
      ~ In coherence_weakness (snd found))
  /\ (ArgumentStructureResult.score ast = 0.65 ->
      ArgumentStructureResult.paragraph_coherence ast = 0.55 ->
      In coherence_weakness (snd found))
  /\ (In coherence_strength (fst found) ->
      (0.7 <=? ArgumentStructureResult.score ast) = true
      /\ (0.7 <=? ArgumentStructureResult.paragraph_coherence ast) = true).
Proof.
  intros found. unfold found. rewrite identify_by_blocks.
  cbn [fst snd].
  destruct (depth_no_coherence rd) as [Dw Ds].
  destruct (consistency_no_coherence cs) as [Cw Cs].
  destruct (fallacy_no_coherence lf) as [Lw Ls].
  destruct (structure_coherence ast) as [Aw As].
  assert (W : In coherence_weakness
                (weaknesses (depth_findings rd no_findings)
                 ++ weaknesses (structure_findings ast no_findings)
                 ++ weaknesses (consistency_findings cs no_findings)
                 ++ weaknesses (fallacy_findings lf no_findings))
              <-> (0.7 <=? ArgumentStructureResult.score ast) = false
                  /\ (ArgumentStructureResult.paragraph_coherence ast <? 0.6) = true).
  { rewrite !in_app_iff. apply only_second; assumption. }
  split; [|split; [|split]].
  - intros Hs. rewrite W. apply ltb_not_leb in Hs. rewrite Hs.
    split; [intros [_ H]; exact H|intros H; split; [reflexivity|exact H]].
  - intros Hs Hc. rewrite W, Hs, Hc. intros [_ H]. vm_compute in H. discriminate.
  - intros Hs Hc. rewrite W, Hs, Hc. split; vm_compute; reflexivity.
  - rewrite !in_app_iff. intros [H|[H|[H|H]]]; try contradiction.
    apply As. exact H.
Qed.

Lemma coherence_weakness_threshold_witness :
  ~ In coherence_weakness
      (snd (_identify_strengths_weaknesses (Sample.depth 0.8)
              (Sample.structure 0.65 0.65) (Sample.consistency 0.9)
              (Sample.fallacies 0.7)))
  /\ In coherence_weakness
       (snd (_identify_strengths_weaknesses (Sample.depth 0.8)
               (Sample.structure 0.65 0.55) (Sample.consistency 0.9)
               (Sample.fallacies 0.7))).
Proof.
  split.
  - apply (coherence_weakness_threshold (Sample.depth 0.8)
             (Sample.structure 0.65 0.65) (Sample.consistency 0.9)
             (Sample.fallacies 0.7)); reflexivity.
  - apply (coherence_weakness_threshold (Sample.depth 0.8)
             (Sample.structure 0.65 0.55) (Sample.consistency 0.9)
             (Sample.fallacies 0.7)); reflexivity.
Defined.

(** C10.  The strengths and the weaknesses of an evaluation are the findings
    of the four dimensions one after another, and for validated component
    results (scores within [[0.0, 1.0]], as in every report, see
    [evaluate_assembles]) no dimension adds to both lists: reasoning depth and
    argument structure add no strength when their score is below 0.7 and no
    weakness when it is at least 0.7; consistency and logical fallacies add
    no strength when their score is below 0.8 and no weakness when it is at
    least 0.8. *)
Theorem no_dimension_on_both_lists
    (rd : ReasoningDepthResult.t) (ast : ArgumentStructureResult.t)
    (cs : ConsistencyResult.t) (lf : LogicalFallacyResult.t) :
  between 0.0 1.0 (ReasoningDepthResult.score rd) = true ->
  between 0.0 1.0 (ArgumentStructureResult.score ast) = true ->
  between 0.0 1.0 (ConsistencyResult.score cs) = true ->
  between 0.0 1.0 (LogicalFallacyResult.score lf) = true ->
  let d := depth_findings rd no_findings in
  let a := structure_findings ast no_findings in
  let c := consistency_findings cs no_findings in
  let l := fallacy_findings lf no_findings in
  _identify_strengths_weaknesses rd ast cs lf
  = (strengths d ++ strengths a ++ strengths c ++ strengths l,
     weaknesses d ++ weaknesses a ++ weaknesses c ++ weaknesses l)
  /\ ((strengths d = [] /\ (ReasoningDepthResult.score rd <? 0.7) = true)
      \/ (weaknesses d = [] /\ (0.7 <=? ReasoningDepthResult.score rd) = true))
  /\ ((strengths a = [] /\ (ArgumentStructureResult.score ast <? 0.7) = true)
      \/ (weaknesses a = [] /\ (0.7 <=? ArgumentStructureResult.score ast) = true))
  /\ ((strengths c = [] /\ (ConsistencyResult.score cs <? 0.8) = true)
      \/ (weaknesses c = [] /\ (0.8 <=? ConsistencyResult.score cs) = true))
  /\ ((strengths l = [] /\ (LogicalFallacyResult.score lf <? 0.8) = true)
      \/ (weaknesses l = [] /\ (0.8 <=? LogicalFallacyResult.score lf) = true)).
Proof.
  intros Hd Ha Hc Hl d a c l.
  split; [apply identify_by_blocks|].
  pose proof (depth_one_sided rd) as D.
  pose proof (structure_one_sided ast) as A.
  pose proof (consistency_one_sided cs) as C.
  pose proof (fallacy_one_sided lf) as L.
  cbv zeta in D, A, C, L. fold d in D. fold a in A. fold c in C. fold l in L.
  apply between_number in Hd, Ha, Hc, Hl.
  repeat split.
  - destruct (0.7 <=? ReasoningDepthResult.score rd) eqn:E; [right; auto|left].
    split; [exact D|]. apply not_leb_ltb; auto.
  - destruct (0.7 <=? ArgumentStructureResult.score ast) eqn:E; [right; auto|left].
    split; [exact A|]. apply not_leb_ltb; auto.
  - destruct (0.8 <=? ConsistencyResult.score cs) eqn:E; [right; auto|left].
    split; [exact C|]. apply not_leb_ltb; auto.
  - destruct (0.8 <=? LogicalFallacyResult.score lf) eqn:E; [right; auto|left].
    split; [exact L|]. apply not_leb_ltb; auto.
Qed.

Lemma no_dimension_on_both_lists_witness :
  strengths (consistency_findings (Sample.consistency 0.75) no_findings) = []
  /\ (ConsistencyResult.score (Sample.consistency 0.75) <? 0.8) = true.
Proof.
  destruct (no_dimension_on_both_lists (Sample.depth 0.8) (Sample.structure 0.65 0.55)
              (Sample.consistency 0.75) (Sample.fallacies 0.9)
              eq_refl eq_refl eq_refl eq_refl) as (_ & _ & _ & [H|[_ H]] & _).
  - exact H.
  - discriminate H.
Defined.

(** ** Entries that are not objects *)

Lemma objects_filter (items : list json) : objects (filter is_dict items) = objects items.
Proof.
  induction items as [|v items IH]; [reflexivity|].
  destruct v; simpl; try exact IH. f_equal. exact IH.
Qed.

Section ComponentFacts.

Import ArgumentStructureAgent.

Lemma fold_parse_component (items : list json) (parsed : list component) :
  fold_left parse_component items parsed
  = parsed ++ map component_dict (objects items).
Proof.
  revert parsed. induction items as [|v items IH]; intros parsed.
  - simpl. symmetry. apply app_nil_r.
  - simpl fold_left. rewrite IH. destruct v; try reflexivity.
    simpl. rewrite <- app_assoc. reflexivity.
Qed.

Lemma parse_components_objects env (items : list json) :
  _parse_components env (JList items) = Ok (map component_dict (objects items)).
Proof.
  unfold _parse_components. simpl. rewrite fold_parse_component. reflexivity.
Qed.

Lemma component_normalize_same env (members members' : list (str * json)) (items : list json) :
  lookup (lit "argument_components") members = Some (JList items) ->
  lookup (lit "argument_components") members' = Some (JList (filter is_dict items)) ->
  same_but (lit "argument_components") members members' ->
  normalize env (JDict members) = normalize env (JDict members').
Proof.
  intros H H' S. unfold normalize. cbn [get bind].
  rewrite H, H', !parse_components_objects, objects_filter.
  rewrite (S (lit "score") eq_refl), (S (lit "has_clear_structure") eq_refl),
    (S (lit "paragraph_coherence") eq_refl), (S (lit "structure_explanation") eq_refl).
  reflexivity.
Qed.

End ComponentFacts.

Section ParserFacts.

Import LogicalFallacyAgent.

Lemma parse_fallacies_traverse env (items : list json) (acc : list fallacy) :
  parse_fallacies env items acc
  = (l <- traverse (fallacy_dict env) (objects items) ;; Ok (acc ++ l)).
Proof.
  revert acc. induction items as [|v items IH]; intros acc.
  - simpl. rewrite app_nil_r. reflexivity.
  - destruct v; try apply IH.
    simpl. destruct (fallacy_dict env members) as [f|e]; cbn [bind]; [|reflexivity].
    rewrite IH. destruct (traverse _ _); cbn [bind]; [|reflexivity].
    rewrite <- app_assoc. reflexivity.
Qed.

Lemma parse_fallacies_objects env (items : list json) :
  parse_fallacies env items [] = traverse (fallacy_dict env) (objects items).
Proof.
  rewrite parse_fallacies_traverse. destruct (traverse _ _); reflexivity.
Qed.

Lemma traverse_bounded env (ms : list (list (str * json))) (l : list fallacy) :
  traverse (fallacy_dict env) ms = Ok l -> Forall bounded_severity l.
Proof.
  revert l. induction ms as [|m ms IH]; intros l H; simpl in H.
  - injection H as <-. constructor.
  - bind_inv H. injection H as <-. constructor; [|auto].
    unfold fallacy_dict in *. bind_inv E. injection E as <-. apply clamp_between.
Qed.

(** The average of bounded severities is a number, and so is what is left
    of one. *)
Lemma inverse_average_number (l : list fallacy) (len : float) :
  l <> [] -> Forall bounded_severity l ->
  of_int (Z.of_nat (length l)) = Some len ->
  is_nan (1.0 - py_sum (map severity l) / len) = false.
Proof.
  intros Hl Hb Hlen.
  destruct l as [|f l]; [congruence|].
  change (Z.of_nat (length (f :: l))) with (Z.pos (Pos.of_succ_nat (length l))) in Hlen.
  destruct (of_int_pos _ _ Hlen) as (m & e & ->).
  apply sub_finite_number. apply nonneg_number. apply div_nonneg.
  apply sum_nonneg. apply Forall_map. eapply Forall_impl; [|exact Hb].
  intros a Ha. eapply between_nonneg. exact Ha.
Qed.

Lemma of_int_nearest (n : Z) (x : float) : of_int n = Some x -> x = nearest n.
Proof. unfold of_int. destruct (nearest n); congruence. Qed.

Lemma derived_score_spec env (l : list fallacy) (s : float) :
  Forall bounded_severity l -> derived_score env l = Ok s ->
  py_max 0.0 (py_min 1.0 s) = spec_derived_score l.
Proof.
  intros Hb H. unfold derived_score in H. destruct l as [|f l].
  - injection H as <-. reflexivity.
  - destruct (of_int _) as [len|] eqn:E; [|discriminate]. injection H as <-.
    unfold spec_derived_score, average_severity.
    rewrite <- (of_int_nearest _ _ E).
    apply clamp_collapse. apply inverse_average_number; [discriminate|assumption|assumption].
Qed.

(** The specified score reads the severities only. *)
Lemma spec_derived_score_severities (l l' : list fallacy) :
  map severity l = map severity l' -> spec_derived_score l = spec_derived_score l'.
Proof.
  intros H. assert (L : length l = length l')
    by (rewrite <- (length_map severity l), H; apply length_map).
  unfold spec_derived_score, average_severity. rewrite H, L.
  destruct l, l'; try discriminate; reflexivity.
Qed.

Lemma normalize_without_score env members r :
  lookup (lit "score") members = None ->
  normalize env (JDict members) = Ok r ->
  score r = spec_derived_score (fallacies r).
Proof.
  intros Hs H. unfold normalize in H. cbn [get bind] in H. rewrite Hs in H.
  bind_inv H.
  match goal with
  | F : py_float _ (JFloat _) = Ok _ |- _ => cbn [py_float] in F; injection F as <-
  end.
  injection H as <-. cbn [score fallacies].
  eapply derived_score_spec; [|eassumption].
  eapply traverse_bounded. rewrite <- parse_fallacies_objects. eassumption.
Qed.

Lemma fallacy_normalize_same env (members members' : list (str * json)) (items : list json) :
  lookup (lit "fallacies") members = Some (JList items) ->
  lookup (lit "fallacies") members' = Some (JList (filter is_dict items)) ->
  same_but (lit "fallacies") members members' ->
  normalize env (JDict members) = normalize env (JDict members').
Proof.
  intros H H' S. unfold normalize. cbn [get bind iterate].
  rewrite H, H'. cbn [iterate bind].
  rewrite !parse_fallacies_objects, objects_filter.
  rewrite (S (lit "score") eq_refl), (S (lit "fallacy_explanation") eq_refl).
  reflexivity.
Qed.

End ParserFacts.

(** C5 (the claim as stated fails).  The response
    [{"fallacies": [1, {"severity": "high"}]}] is a valid JSON object with no
    top-level [score].  Converting its severity raises [ValueError], so the
    parser returns the fallback: no fallacy and the score 0.7, where the claim
    gives 1.0 when no fallacy was parsed. *)
Lemma derived_score_counterexample :
  let env := Sample.env (fun _ => Ok Sample.refusal) in
  json_loads env (strip_fences Sample.worded_severity)
  = Ok (JDict Sample.worded_severity_members)
  /\ lookup (lit "score") Sample.worded_severity_members = None
  /\ exists r, LogicalFallacyAgent._parse_response env Sample.worded_severity = Ok r
               /\ LogicalFallacyAgent.fallacies r = []
               /\ LogicalFallacyAgent.score r = 0.7
               /\ LogicalFallacyAgent.score r
                  <> spec_derived_score (LogicalFallacyAgent.fallacies r).
Proof.
  intros env. split; [vm_compute; reflexivity|]. split; [reflexivity|].
  eexists. split; [vm_compute; reflexivity|].
  split; [reflexivity|]. split; [reflexivity|]. vm_compute. discriminate.
Qed.

(** C5 (amended).  In the parser of the fallacy agent, for every response
    that decodes to a JSON object with no top-level [score] and on which the
    guarded block of [_parse_response] completes without an exception, the
    returned score is 1.0 minus the average severity of the parsed fallacies,
    clamped to [[0.0, 1.0]]; it is 1.0 when no fallacy was parsed, and parsed
    severities 0.2 and 0.8 give 0.5. *)
Theorem derived_score_when_parsed
    (env : environment) (response_text : str) (members : list (str * json))
    (r : LogicalFallacyAgent.analysis) :
  json_loads env (strip_fences response_text) = Ok (JDict members) ->
  lookup (lit "score") members = None ->
  LogicalFallacyAgent.parse env response_text = Ok r ->
  LogicalFallacyAgent._parse_response env response_text = Ok r
  /\ LogicalFallacyAgent.score r = spec_derived_score (LogicalFallacyAgent.fallacies r)
  /\ (LogicalFallacyAgent.fallacies r = [] -> LogicalFallacyAgent.score r = 1.0)
  /\ (map LogicalFallacyAgent.severity (LogicalFallacyAgent.fallacies r) = [0.2; 0.8] ->
      LogicalFallacyAgent.score r = 0.5).
Proof.
  intros Hloads Hscore Hparse.
  assert (S : LogicalFallacyAgent.score r
              = spec_derived_score (LogicalFallacyAgent.fallacies r)).
  { unfold LogicalFallacyAgent.parse in Hparse. rewrite Hloads in Hparse.
    cbn [bind] in Hparse. eapply normalize_without_score; eassumption. }
  split; [|split; [exact S|split]].
  - unfold LogicalFallacyAgent._parse_response. rewrite Hparse. reflexivity.
  - intros E. rewrite S, E. reflexivity.
  - intros E. rewrite S.
    rewrite (spec_derived_score_severities _
               [ {| LogicalFallacyAgent.type := JNull;
                    LogicalFallacyAgent.location := JNull;
                    LogicalFallacyAgent.description := JNull;
                    LogicalFallacyAgent.severity := 0.2 |};
                 {| LogicalFallacyAgent.type := JNull;
                    LogicalFallacyAgent.location := JNull;
                    LogicalFallacyAgent.description := JNull;
                    LogicalFallacyAgent.severity := 0.8 |} ] E).
    vm_compute. reflexivity.
Qed.

Lemma derived_score_when_parsed_witness :
  exists r,
    LogicalFallacyAgent._parse_response (Sample.env (fun _ => Ok Sample.refusal))
      Sample.two_severities = Ok r
    /\ LogicalFallacyAgent.score r = 0.5.
Proof.
  pose (env := Sample.env (fun _ => Ok Sample.refusal)).
  assert (P : exists r, LogicalFallacyAgent.parse env Sample.two_severities = Ok r
                        /\ map LogicalFallacyAgent.severity (LogicalFallacyAgent.fallacies r)
                           = [0.2; 0.8]).
  { eexists. split; vm_compute; reflexivity. }
  destruct P as (r & P & V). exists r.
  destruct (derived_score_when_parsed env Sample.two_severities
              Sample.two_severities_members r) as (H1 & _ & _ & H4).
  - vm_compute. reflexivity.
  - reflexivity.
  - exact P.
  - split; [exact H1|exact (H4 V)].
Defined.

(** C9 (the claim as stated fails).  The response
    [{"fallacies": [1, {"severity": "high"}]}] is a valid JSON object whose
    list of fallacies has an entry that is not an object, and parsing it does
    not succeed: the severity of the other entry raises [ValueError] and the
    fallback is returned. *)
Lemma non_object_entries_counterexample :
  let env := Sample.env (fun _ => Ok Sample.refusal) in
  json_loads env (strip_fences Sample.worded_severity)
  = Ok (JDict Sample.worded_severity_members)
  /\ lookup (lit "fallacies") Sample.worded_severity_members
     = Some (JList [JInt 1; JDict [(lit "severity", JStr (lit "high"))]])
  /\ LogicalFallacyAgent.parse env Sample.worded_severity
     = Raise (Exn ValueError (lit "could not convert string to float: 'high'"))
  /\ LogicalFallacyAgent._parse_response env Sample.worded_severity
     = Ok (LogicalFallacyAgent.fallback parse_failed
             (Exn ValueError (lit "could not convert string to float: 'high'"))).
Proof.
  intros env. repeat split; vm_compute; reflexivity.
Qed.

(** C9 (amended).  Entries of the list-typed field that are not JSON objects
    are dropped and never make parsing fail.  For every list, [_parse_components]
    returns one component per object entry, in order, and the loop over
    [fallacies] is the conversion of the object entries alone, in order.  For
    both agents, a response object whose list has such entries is parsed to
    the same result as the response that differs only by their removal
    (which is the fallback when some other conversion raises). *)
Theorem non_object_entries_are_dropped (env : environment) (items : list json) :
  ArgumentStructureAgent._parse_components env (JList items)
  = Ok (map ArgumentStructureAgent.component_dict (objects items))
  /\ LogicalFallacyAgent.parse_fallacies env items []
     = traverse (LogicalFallacyAgent.fallacy_dict env) (objects items)
  /\ (forall text text' members members',
         json_loads env (strip_fences text) = Ok (JDict members) ->
         json_loads env (strip_fences text') = Ok (JDict members') ->
         lookup (lit "argument_components") members = Some (JList items) ->
         lookup (lit "argument_components") members'
         = Some (JList (filter is_dict items)) ->
         same_but (lit "argument_components") members members' ->
         ArgumentStructureAgent._parse_response env text
         = ArgumentStructureAgent._parse_response env text')
  /\ (forall text text' members members',
         json_loads env (strip_fences text) = Ok (JDict members) ->
         json_loads env (strip_fences text') = Ok (JDict members') ->
         lookup (lit "fallacies") members = Some (JList items) ->
         lookup (lit "fallacies") members' = Some (JList (filter is_dict items)) ->
         same_but (lit "fallacies") members members' ->
         LogicalFallacyAgent._parse_response env text
         = LogicalFallacyAgent._parse_response env text').
Proof.
  split; [apply parse_components_objects|].
  split; [apply parse_fallacies_objects|].
  split; intros text text' members members' L L' H H' S.
  - unfold ArgumentStructureAgent._parse_response, ArgumentStructureAgent.parse.
    rewrite L, L'. cbn [bind].
    rewrite (component_normalize_same env members members' items H H' S).
    reflexivity.
  - unfold LogicalFallacyAgent._parse_response, LogicalFallacyAgent.parse.
    rewrite L, L'. cbn [bind].
    rewrite (fallacy_normalize_same env members members' items H H' S).
    reflexivity.
Qed.

Lemma same_but_single (key : str) (v v' : json) :
  same_but key [(key, v)] [(key, v')].
Proof. intros k Hk. simpl. rewrite Hk. reflexivity. Qed.

Lemma non_object_entries_are_dropped_witness :
  let env := Sample.env (fun _ => Ok Sample.refusal) in
  ArgumentStructureAgent._parse_response env Sample.one_component_and_others
  = ArgumentStructureAgent._parse_response env Sample.one_component
  /\ LogicalFallacyAgent._parse_response env Sample.two_severities_and_others
     = LogicalFallacyAgent._parse_response env Sample.two_severities.
Proof.
  intros env. split.
  - apply (non_object_entries_are_dropped env
             [JNull; JDict [(lit "type", JStr (lit "claim"))]; JInt 3])
      with (members := Sample.one_component_and_others_members)
           (members' := Sample.one_component_members).
    + vm_compute. reflexivity.
    + vm_compute. reflexivity.
    + reflexivity.
    + reflexivity.
    + apply same_but_single.
  - apply (non_object_entries_are_dropped env
             [JInt 1; JDict [(lit "severity", JFloat 0.2)]; JStr (lit "x");
              JDict [(lit "severity", JFloat 0.8)]])
      with (members := Sample.two_severities_and_others_members)
           (members' := Sample.two_severities_members).
    + vm_compute. reflexivity.
    + vm_compute. reflexivity.
    + reflexivity.
    + reflexivity.
    + apply same_but_single.
Defined.

(** C6.  For every text [core] that begins and ends as a JSON text does,
    surrounded by any white space, the three presentations (unwrapped, inside
    a fence opened with the [json] tag, inside a bare fence, the fenced ones
    surrounded by any white space) are stripped to [core], stripping [core]
    again leaves it unchanged, and the parser of each of the four agents
    returns the same result for the three presentations. *)
Theorem fence_presentations_parse_alike
    (env : environment) (core w w' a b : str) :
  json_text core = true ->
  blank w = true -> blank w' = true -> blank a = true -> blank b = true ->
  let payload := w ++ core ++ w' in
  let tagged := a ++ fenced (lit "json") payload ++ b in
  let bare := a ++ fenced [] payload ++ b in
  (strip_fences payload = core /\ strip_fences tagged = core
   /\ strip_fences bare = core /\ strip_fences core = core)
  /\ (ReasoningDepthAgent._parse_response env tagged
      = ReasoningDepthAgent._parse_response env payload
      /\ ReasoningDepthAgent._parse_response env bare
         = ReasoningDepthAgent._parse_response env payload)
  /\ (ArgumentStructureAgent._parse_response env tagged
      = ArgumentStructureAgent._parse_response env payload
      /\ ArgumentStructureAgent._parse_response env bare
         = ArgumentStructureAgent._parse_response env payload)
  /\ (ConsistencyAgent._parse_response env tagged
      = ConsistencyAgent._parse_response env payload
      /\ ConsistencyAgent._parse_response env bare
         = ConsistencyAgent._parse_response env payload)
  /\ (LogicalFallacyAgent._parse_response env tagged
      = LogicalFallacyAgent._parse_response env payload
      /\ LogicalFallacyAgent._parse_response env bare
         = LogicalFallacyAgent._parse_response env payload).
Proof.
  intros Hj Hw Hw' Ha Hb payload tagged bare.
  destruct (strip_fences_presentations core w w' a b Hj Hw Hw' Ha Hb) as (P & T & B).
  fold payload in P, T, B. fold tagged in T. fold bare in B.
  assert (C : strip_fences core = core).
  { destruct (strip_fences_presentations core [] [] [] [] Hj eq_refl eq_refl eq_refl
                eq_refl) as (C & _ & _).
    simpl in C. rewrite app_nil_r in C. exact C. }
  split; [auto|].
  unfold ReasoningDepthAgent._parse_response, ReasoningDepthAgent.parse,
    ArgumentStructureAgent._parse_response, ArgumentStructureAgent.parse,
    ConsistencyAgent._parse_response, ConsistencyAgent.parse,
    LogicalFallacyAgent._parse_response, LogicalFallacyAgent.parse.
  rewrite P, T, B. repeat split; reflexivity.
Qed.

Lemma fence_presentations_parse_alike_witness :
  let env := Sample.env (fun _ => Ok Sample.refusal) in
  let payload := nl ++ Sample.empty_object ++ nl in
  strip_fences (fenced (lit "json") payload ++ nl) = Sample.empty_object
  /\ ConsistencyAgent._parse_response env (fenced (lit "json") payload ++ nl)
     = ConsistencyAgent._parse_response env payload.
Proof.
  intros env payload.
  destruct (fence_presentations_parse_alike env Sample.empty_object nl nl [] nl
              eq_refl eq_refl eq_refl eq_refl eq_refl)
    as ((_ & T & _ & _) & _ & _ & (C & _) & _).
  split; [exact T|exact C].
Defined.
